(** * ai-text-refiner: the prompt service and the interaction controller

    A shallow embedding of
      - [src/services/geminiService.ts]   (the first prompt service),
      - the refactored prompt service built on [callGemini],
      - the [App] component (state, handlers and storage effects),
      - the [Language] and [Tone] enums,
    followed by the properties stated about them.

    JavaScript strings are sequences of UTF-16 code units; they are modelled
    as [list N].  The remote generation API and the browser storage are
    collaborators: the first is an arbitrary oracle whose calls are logged,
    the second a finite map whose writes the browser may refuse. *)

From stdpp Require Import gmap.
From Stdlib Require Import String Ascii NArith List Bool Lia.
From Stdlib Require QArith.
Import ListNotations.

Local Open Scope N_scope.

(** ** JavaScript strings *)

Module JS.

(** A string value: its UTF-16 code units. *)
Definition jsstring : Type := list N.

(** An ASCII literal of the source, as code units. *)
Definition lit (s : string) : jsstring :=
  List.map N_of_ascii (list_ascii_of_string s).

(** [a === b] on strings: the same code units in the same order. *)
Fixpoint streq (a b : jsstring) : bool :=
  match a, b with
  | [], [] => true
  | x :: a', y :: b' => (x =? y) && streq a' b'
  | _, _ => false
  end.

(** ECMAScript [WhiteSpace] and [LineTerminator] code points, the ones
    [String.prototype.trim] strips:
    TAB, LF, VT, FF, CR, SP, NBSP, the category Zs, LS, PS and ZWNBSP. *)
Definition isWhiteSpace (c : N) : bool :=
  ((9 <=? c) && (c <=? 13))
  || (c =? 32) || (c =? 160) || (c =? 5760)
  || ((8192 <=? c) && (c <=? 8202))
  || (c =? 8232) || (c =? 8233) || (c =? 8239) || (c =? 8287)
  || (c =? 12288) || (c =? 65279).

Fixpoint trimStart (s : jsstring) : jsstring :=
  match s with
  | [] => []
  | c :: s' => if isWhiteSpace c then trimStart s' else s
  end.

Definition trimEnd (s : jsstring) : jsstring := rev (trimStart (rev s)).

(** [s.trim()]. *)
Definition trim (s : jsstring) : jsstring := trimEnd (trimStart s).

(** Truthiness of a string: only the empty string is falsy. *)
Definition truthy (s : jsstring) : bool :=
  match s with [] => false | _ :: _ => true end.

(** [s.startsWith(p)]. *)
Fixpoint startsWith (p s : jsstring) : bool :=
  match p, s with
  | [], _ => true
  | x :: p', y :: s' => (x =? y) && startsWith p' s'
  | _ :: _, [] => false
  end.

(** [s.includes(p)]. *)
Fixpoint includes (p s : jsstring) : bool :=
  startsWith p s ||
  match s with
  | [] => false
  | _ :: s' => includes p s'
  end.

Definition jsstring_eq_dec (a b : jsstring) : {a = b} + {a <> b} :=
  List.list_eq_dec N.eq_dec a b.

(** ASCII letters only: what [String.prototype.toLowerCase] does on a string
    of ASCII code units.  The full Unicode mapping of the runtime is a
    parameter of the controller below. *)
Definition asciiToLowerCase (s : jsstring) : jsstring :=
  List.map (fun c => if (65 <=? c) && (c <=? 90) then c + 32 else c) s.

End JS.

Import JS.

(** ** JSON text of an array of strings

    [JSON.stringify] and [JSON.parse] as the component uses them: on the
    [string[]] held in [customTones]. *)

Module JSON.

Definition hexDigit (d : N) : N := if d <? 10 then 48 + d else 87 + d.

(** [UnicodeEscape]: a backslash, [u], and four lowercase hex digits. *)
Definition unicodeEscape (c : N) : jsstring :=
  [92; 117; hexDigit (c / 4096 mod 16); hexDigit (c / 256 mod 16);
   hexDigit (c / 16 mod 16); hexDigit (c mod 16)].

Definition isHighSurrogate (c : N) : bool := (55296 <=? c) && (c <=? 56319).
Definition isLowSurrogate (c : N) : bool := (56320 <=? c) && (c <=? 57343).

(** [QuoteJSONString] on one code point below U+10000: the two-character
    escapes of BS, TAB, LF, FF, CR, the double quote and the backslash; a
    [UnicodeEscape] for the other control characters and for a lone
    surrogate; the code unit itself otherwise. *)
Definition quoteUnit (c : N) : jsstring :=
  if c =? 8 then [92; 98]
  else if c =? 9 then [92; 116]
  else if c =? 10 then [92; 110]
  else if c =? 12 then [92; 102]
  else if c =? 13 then [92; 114]
  else if c =? 34 then [92; 34]
  else if c =? 92 then [92; 92]
  else if (c <? 32) || isHighSurrogate c || isLowSurrogate c
       then unicodeEscape c
  else [c].

(** The characters between the quotes.  A high surrogate followed by a low
    one is a single code point above U+FFFF and is copied as it is. *)
Fixpoint quoteBody (s : jsstring) : jsstring :=
  match s with
  | [] => []
  | c :: s' =>
      match s' with
      | d :: s'' =>
          if isHighSurrogate c && isLowSurrogate d
          then c :: d :: quoteBody s''
          else quoteUnit c ++ quoteBody s'
      | [] => quoteUnit c
      end
  end.

Definition quote (s : jsstring) : jsstring := 34 :: quoteBody s ++ [34].

Fixpoint joinElements (l : list jsstring) : jsstring :=
  match l with
  | [] => []
  | s :: l' =>
      match l' with
      | [] => quote s
      | _ :: _ => quote s ++ 44 :: joinElements l'
      end
  end.

(** [JSON.stringify(l)] for [l : string[]]. *)
Definition stringify (l : list jsstring) : jsstring :=
  91 :: joinElements l ++ [93].

(** JSON insignificant whitespace: SP, TAB, LF, CR. *)
Definition isJSONWhiteSpace (c : N) : bool :=
  (c =? 32) || (c =? 9) || (c =? 10) || (c =? 13).

Definition hexValue (c : N) : option N :=
  if (48 <=? c) && (c <=? 57) then Some (c - 48)
  else if (97 <=? c) && (c <=? 102) then Some (c - 87)
  else if (65 <=? c) && (c <=? 70) then Some (c - 55)
  else None.

Definition hex4 (a b c d : N) : option N :=
  match hexValue a, hexValue b, hexValue c, hexValue d with
  | Some x, Some y, Some z, Some w => Some (((x * 16 + y) * 16 + z) * 16 + w)
  | _, _, _, _ => None
  end.

(** The character a two-character escape stands for. *)
Definition simpleEscape (e : N) : option N :=
  if e =? 34 then Some 34
  else if e =? 92 then Some 92
  else if e =? 47 then Some 47
  else if e =? 98 then Some 8
  else if e =? 102 then Some 12
  else if e =? 110 then Some 10
  else if e =? 114 then Some 13
  else if e =? 116 then Some 9
  else None.

(** Where the reader stands in the text of an array of strings. *)
Inductive Position : Type :=
  | BeforeArray                    (* expects the opening bracket *)
  | FirstElement                   (* after the bracket: a string or the end *)
  | InString (acc : jsstring)      (* inside a string; [acc] is reversed *)
  | AfterElement                   (* after a string: a comma or the end *)
  | NextElement                    (* after a comma: a string *)
  | AfterArray.                    (* after the closing bracket *)

(** The reader.  [items] holds the strings read so far, last one first.
    [None] is every outcome other than an array of strings. *)
Fixpoint parseFrom (p : Position) (items : list jsstring) (s : jsstring)
  : option (list jsstring) :=
  match s with
  | [] =>
      match p with
      | AfterArray => Some (rev items)
      | _ => None
      end
  | c :: rest =>
      match p with
      | BeforeArray =>
          if isJSONWhiteSpace c then parseFrom BeforeArray items rest
          else if c =? 91 then parseFrom FirstElement items rest
          else None
      | FirstElement =>
          if isJSONWhiteSpace c then parseFrom FirstElement items rest
          else if c =? 34 then parseFrom (InString []) items rest
          else if c =? 93 then parseFrom AfterArray items rest
          else None
      | InString acc =>
          if c =? 34 then parseFrom AfterElement (rev acc :: items) rest
          else if c =? 92 then
            match rest with
            | [] => None
            | e :: rest1 =>
                if e =? 117 then
                  match rest1 with
                  | h1 :: h2 :: h3 :: h4 :: rest2 =>
                      match hex4 h1 h2 h3 h4 with
                      | Some u => parseFrom (InString (u :: acc)) items rest2
                      | None => None
                      end
                  | _ => None
                  end
                else
                  match simpleEscape e with
                  | Some u => parseFrom (InString (u :: acc)) items rest1
                  | None => None
                  end
            end
          else if c <? 32 then None
          else parseFrom (InString (c :: acc)) items rest
      | AfterElement =>
          if isJSONWhiteSpace c then parseFrom AfterElement items rest
          else if c =? 44 then parseFrom NextElement items rest
          else if c =? 93 then parseFrom AfterArray items rest
          else None
      | NextElement =>
          if isJSONWhiteSpace c then parseFrom NextElement items rest
          else if c =? 34 then parseFrom (InString []) items rest
          else None
      | AfterArray =>
          if isJSONWhiteSpace c then parseFrom AfterArray items rest
          else None
      end
  end.

(** [JSON.parse(text)] on the text of an array of strings. *)
Definition parse (text : jsstring) : option (list jsstring) :=
  parseFrom BeforeArray [] text.

End JSON.

(** ** The remote generation API

    [ai.models.generateContent] is a collaborator.  What it answers is left
    arbitrary: it may depend on the request and on the requests made before.
    Every request is recorded, in order, so that the number of network calls
    and their parameters can be stated. *)

Module GenAI.

Record GenerateContentConfig : Type := {
  systemInstruction : jsstring;
  temperature : QArith_base.Q;
  topP : QArith_base.Q
}.

Record GenerateContentParameters : Type := {
  model : jsstring;
  contents : jsstring;
  config : GenerateContentConfig
}.

(** A thrown value: an [Error] instance with its [message], or anything
    else ([error instanceof Error] is false). *)
Inductive Thrown : Type :=
  | ErrorObject (message : jsstring)
  | NonError.

(** The outcome of awaiting one call: a response, whose [text] may be
    [undefined], or a rejection. *)
Inductive Outcome : Type :=
  | Response (text : option jsstring)
  | Rejects (e : Thrown).

(** The remote side: [answer] is the outcome of a request, given the
    requests made before it; [undefinedTrimMessage] is the message of the
    [TypeError] the runtime raises for [undefined.trim()]. *)
Record Remote : Type := {
  answer :
    list GenerateContentParameters -> GenerateContentParameters -> Outcome;
  undefinedTrimMessage : jsstring
}.

(** An asynchronous computation that talks to the API: it reads the remote
    side and extends the log of requests. *)
Definition Async (A : Type) : Type :=
  Remote -> list GenerateContentParameters ->
  A * list GenerateContentParameters.

Definition ret {A : Type} (a : A) : Async A := fun _ log => (a, log).

Definition bind {A B : Type} (m : Async A) (k : A -> Async B) : Async B :=
  fun r log => let (a, log') := m r log in k a r log'.

Definition generateContent (p : GenerateContentParameters) : Async Outcome :=
  fun r log => (answer r log p, log ++ [p]).

Definition typeErrorOfUndefined : Async Thrown :=
  fun r log => (ErrorObject (undefinedTrimMessage r), log).

(** Run a computation from an empty log. *)
Definition run {A : Type} (m : Async A) (r : Remote)
  : A * list GenerateContentParameters := m r [].

End GenAI.

Import GenAI.

Declare Scope async_scope.
Delimit Scope async_scope with async.
Notation "x <- m ;; k" := (bind m (fun x => k))
  (at level 100, m at next level, right associativity) : async_scope.

(** ** src/services/geminiService.ts *)

Module SrcGeminiService.

Inductive Language : Type := ENGLISH | BANGLISH | BANGLA.

(** The string value of each member of [enum Language]. *)
Definition LanguageValue (l : Language) : jsstring :=
  match l with
  | ENGLISH => lit "English"
  | BANGLISH => lit "Banglish (Bengali in English letters)"
  | BANGLA => lit "Bengali (Bangla script)"
  end.

Definition systemInstructionText : jsstring :=
  lit "You are a linguistic expert specializing in text transformation. Your task is to rewrite the user's text into a specific tone while preserving the core message and the original language. You are proficient in " ++ LanguageValue ENGLISH ++ lit ", " ++ LanguageValue BANGLISH ++ lit ", and " ++ LanguageValue BANGLA ++ lit ". Do not add any extra commentary, just provide the refined text.".

Definition promptText (text language tone : jsstring) : jsstring :=
  lit "
    Please refine the following '" ++ language ++ lit "' text into a '" ++ tone ++ lit "' tone.
    Ensure the output remains in '" ++ language ++ lit "'.

    Original Text:
    ---
    " ++ text ++ lit "
    ---
  ".

Definition request (prompt systemInstruction : jsstring)
  : GenerateContentParameters :=
  {| model := lit "gemini-2.5-flash";
     contents := prompt;
     config := {| systemInstruction := systemInstruction;
                  temperature := QArith_base.Qmake 8 10;
                  topP := QArith_base.Qmake 9 10 |} |}.

(** The body of the [try] block: the awaited call, then
    [response.text.trim()].  [inl e] is the value the [catch] clause
    receives. *)
Definition tryGenerate (prompt systemInstruction : jsstring)
  : Async (Thrown + jsstring) :=
  (response <- generateContent (request prompt systemInstruction) ;;
   match response with
   | Response (Some text) => ret (inr (trim text))
   | Response None => e <- typeErrorOfUndefined ;; ret (inl e)
   | Rejects e => ret (inl e)
   end)%async.

(** The [catch] clause also writes to the console, which no result depends
    on. *)
Definition refineText (text : jsstring) (language : Language) (tone : jsstring)
  : Async jsstring :=
  if negb (truthy (trim text)) then ret []
  else
    let systemInstruction := systemInstructionText in
    let prompt := promptText text (LanguageValue language) tone in
    (r <- tryGenerate prompt systemInstruction ;;
     match r with
     | inr refined => ret refined
     | inl (ErrorObject message) =>
         ret (lit "Error: Failed to refine text. " ++ message)
     | inl NonError =>
         ret (lit "An unknown error occurred while refining text.")
     end)%async.

End SrcGeminiService.

(** ** The prompt service built on [callGemini]

    The second copy of the service, the one the component imports
    ([refineText] and [convertBanglishToEnglish]). *)

Module GeminiService.

Definition request (prompt systemInstruction : jsstring)
  : GenerateContentParameters :=
  {| model := lit "gemini-2.5-flash";
     contents := prompt;
     config := {| systemInstruction := systemInstruction;
                  temperature := QArith_base.Qmake 8 10;
                  topP := QArith_base.Qmake 9 10 |} |}.

Definition tryGenerate (prompt systemInstruction : jsstring)
  : Async (Thrown + jsstring) :=
  (response <- generateContent (request prompt systemInstruction) ;;
   match response with
   | Response (Some text) => ret (inr (trim text))
   | Response None => e <- typeErrorOfUndefined ;; ret (inl e)
   | Rejects e => ret (inl e)
   end)%async.

(** The guard looks at the prompt it is given; the [catch] clause turns
    what was thrown into the returned string. *)
Definition callGemini (prompt systemInstruction : jsstring) : Async jsstring :=
  if negb (truthy (trim prompt)) then ret []
  else
    (r <- tryGenerate prompt systemInstruction ;;
     match r with
     | inr processed => ret processed
     | inl (ErrorObject message) =>
         ret (lit "Error: Failed to process text. " ++ message)
     | inl NonError =>
         ret (lit "An unknown error occurred while processing text.")
     end)%async.

Definition refinePrompt (text language tone : jsstring) : jsstring :=
  lit "
    Please refine the following '" ++ language ++ lit "' text into a '" ++ tone ++ lit "' tone.
    Ensure the output remains in '" ++ language ++ lit "'.

    Original Text:
    ---
    " ++ text ++ lit "
    ---
  ".

Definition refineSystemInstruction : jsstring :=
  lit "You are a linguistic expert specializing in text transformation. Your task is to rewrite the user's text into a specific tone while preserving the core message and the original language. You are proficient in English, Banglish (Bengali in English letters), and Bengali (Bangla script). Do not add any extra commentary, just provide the refined text.".

Definition refineText (text language tone : jsstring) : Async jsstring :=
  let systemInstruction := refineSystemInstruction in
  let prompt := refinePrompt text language tone in
  callGemini prompt systemInstruction.

Definition convertPrompt (text tone : jsstring) : jsstring :=
  lit "
    Please translate the following 'Banglish' text into English with a '" ++ tone ++ lit "' tone.

    Original Banglish Text:
    ---
    " ++ text ++ lit "
    ---
  ".

Definition convertSystemInstruction : jsstring :=
  lit "You are an expert linguist specializing in translating and transliterating 'Banglish' (Bengali written using the English alphabet) into fluent, grammatically correct English. After translating, you will rewrite the text into a specific tone, while preserving the original message. Your final output must only be the translated and toned English text, with no extra commentary.".

Definition convertBanglishToEnglish (text tone : jsstring) : Async jsstring :=
  let systemInstruction := convertSystemInstruction in
  let prompt := convertPrompt text tone in
  callGemini prompt systemInstruction.

End GeminiService.

(** ** The [App] component

    React state is a record; a handler is a function from the state its
    closure captured to the list of setter calls it makes, which [render]
    applies in order.  An effect runs after the render when its dependency
    was replaced.  The handlers of the process button and of the tone
    controls are modelled, with the effect that saves the tones; the copy
    button (clipboard and timer) and the markup are not. *)

Module App.

(** [enum Tone], with the string value of each member. *)
Inductive Tone : Type := PROFESSIONAL | CASUAL | CRAZY | COOL.

Definition ToneValue (t : Tone) : jsstring :=
  match t with
  | PROFESSIONAL => lit "Professional"
  | CASUAL => lit "Casual"
  | CRAZY => lit "Crazy"
  | COOL => lit "Cool"
  end.

(** Modelled from the spec: [enum Task] of the component's [./types] module,
    whose declaration is not among the sources.  Its four members are the
    ones the component names; their string values stay a parameter
    ([TaskValue] below) and are taken to be pairwise distinct, so that
    [===] on tasks is equality of members. *)
Inductive Task : Type :=
  | REFINE_ENGLISH
  | REFINE_BANGLISH
  | REFINE_BANGLA
  | BANGLISH_TO_ENGLISH.

Definition Task_eqb (a b : Task) : bool :=
  match a, b with
  | REFINE_ENGLISH, REFINE_ENGLISH
  | REFINE_BANGLISH, REFINE_BANGLISH
  | REFINE_BANGLA, REFINE_BANGLA
  | BANGLISH_TO_ENGLISH, BANGLISH_TO_ENGLISH => true
  | _, _ => false
  end.

(** [Object.values(Tone)], in declaration order. *)
Definition predefinedTones : list jsstring :=
  List.map ToneValue [PROFESSIONAL; CASUAL; CRAZY; COOL].

Definition CUSTOM_TONES_STORAGE_KEY : jsstring :=
  lit "ai-text-refiner-custom-tones".

Definition taskToLanguageMap (t : Task) : option jsstring :=
  match t with
  | REFINE_ENGLISH => Some (lit "English")
  | REFINE_BANGLISH => Some (lit "Banglish (Bengali in English letters)")
  | REFINE_BANGLA => Some (lit "Bengali (Bangla script)")
  | BANGLISH_TO_ENGLISH => None
  end.

(** The ten [useState] cells. *)
Record AppState : Type := {
  inputText : jsstring;
  selectedTask : Task;
  selectedTone : jsstring;
  outputText : jsstring;
  isLoading : bool;
  apiError : option jsstring;
  formError : option jsstring;
  isCopied : bool;
  customTones : list jsstring;
  customToneInput : jsstring
}.

(** The initial values passed to [useState]. *)
Definition initialState : AppState :=
  {| inputText := [];
     selectedTask := REFINE_ENGLISH;
     selectedTone := ToneValue PROFESSIONAL;
     outputText := [];
     isLoading := false;
     apiError := None;
     formError := None;
     isCopied := false;
     customTones := [];
     customToneInput := [] |}.

(** One call of a state setter.  [setCustomTones] is only ever called with
    an updater function or a fresh array. *)
Inductive Update : Type :=
  | SetInputText (v : jsstring)
  | SetSelectedTask (v : Task)
  | SetSelectedTone (v : jsstring)
  | SetOutputText (v : jsstring)
  | SetIsLoading (v : bool)
  | SetApiError (v : option jsstring)
  | SetFormError (v : option jsstring)
  | SetIsCopied (v : bool)
  | SetCustomTones (f : list jsstring -> list jsstring)
  | SetCustomToneInput (v : jsstring).

Definition applyUpdate (st : AppState) (u : Update) : AppState :=
  match u with
  | SetInputText v =>
      {| inputText := v;
         selectedTask := selectedTask st;
         selectedTone := selectedTone st;
         outputText := outputText st;
         isLoading := isLoading st;
         apiError := apiError st;
         formError := formError st;
         isCopied := isCopied st;
         customTones := customTones st;
         customToneInput := customToneInput st |}
  | SetSelectedTask v =>
      {| inputText := inputText st;
         selectedTask := v;
         selectedTone := selectedTone st;
         outputText := outputText st;
         isLoading := isLoading st;
         apiError := apiError st;
         formError := formError st;
         isCopied := isCopied st;
         customTones := customTones st;
         customToneInput := customToneInput st |}
  | SetSelectedTone v =>
      {| inputText := inputText st;
         selectedTask := selectedTask st;
         selectedTone := v;
         outputText := outputText st;
         isLoading := isLoading st;
         apiError := apiError st;
         formError := formError st;
         isCopied := isCopied st;
         customTones := customTones st;
         customToneInput := customToneInput st |}
  | SetOutputText v =>
      {| inputText := inputText st;
         selectedTask := selectedTask st;
         selectedTone := selectedTone st;
         outputText := v;
         isLoading := isLoading st;
         apiError := apiError st;
         formError := formError st;
         isCopied := isCopied st;
         customTones := customTones st;
         customToneInput := customToneInput st |}
  | SetIsLoading v =>
      {| inputText := inputText st;
         selectedTask := selectedTask st;
         selectedTone := selectedTone st;
         outputText := outputText st;
         isLoading := v;
         apiError := apiError st;
         formError := formError st;
         isCopied := isCopied st;
         customTones := customTones st;
         customToneInput := customToneInput st |}
  | SetApiError v =>
      {| inputText := inputText st;
         selectedTask := selectedTask st;
         selectedTone := selectedTone st;
         outputText := outputText st;
         isLoading := isLoading st;
         apiError := v;
         formError := formError st;
         isCopied := isCopied st;
         customTones := customTones st;
         customToneInput := customToneInput st |}
  | SetFormError v =>
      {| inputText := inputText st;
         selectedTask := selectedTask st;
         selectedTone := selectedTone st;
         outputText := outputText st;
         isLoading := isLoading st;
         apiError := apiError st;
         formError := v;
         isCopied := isCopied st;
         customTones := customTones st;
         customToneInput := customToneInput st |}
  | SetIsCopied v =>
      {| inputText := inputText st;
         selectedTask := selectedTask st;
         selectedTone := selectedTone st;
         outputText := outputText st;
         isLoading := isLoading st;
         apiError := apiError st;
         formError := formError st;
         isCopied := v;
         customTones := customTones st;
         customToneInput := customToneInput st |}
  | SetCustomTones f =>
      {| inputText := inputText st;
         selectedTask := selectedTask st;
         selectedTone := selectedTone st;
         outputText := outputText st;
         isLoading := isLoading st;
         apiError := apiError st;
         formError := formError st;
         isCopied := isCopied st;
         customTones := f (customTones st);
         customToneInput := customToneInput st |}
  | SetCustomToneInput v =>
      {| inputText := inputText st;
         selectedTask := selectedTask st;
         selectedTone := selectedTone st;
         outputText := outputText st;
         isLoading := isLoading st;
         apiError := apiError st;
         formError := formError st;
         isCopied := isCopied st;
         customTones := customTones st;
         customToneInput := v |}
  end.

(** The state after React has applied the queued setter calls. *)
Definition render (updates : list Update) (st : AppState) : AppState :=
  fold_left applyUpdate updates st.

Definition replacesCustomTones (u : Update) : bool :=
  match u with
  | SetCustomTones _ => true
  | _ => false
  end.

(** [useMemo(() => [...predefinedTones, ...customTones], [customTones])]. *)
Definition allTones (st : AppState) : list jsstring :=
  predefinedTones ++ customTones st.

(** Truthiness of a [string | null] cell. *)
Definition isSet (o : option jsstring) : bool :=
  match o with
  | Some s => truthy s
  | None => false
  end.

(** The end of [handleRefine]: the result goes to the API-error cell when it
    carries the marker, to the output cell otherwise. *)
Definition showResult (result : jsstring) : list Update :=
  (if startsWith (lit "Error:") result
   then [SetApiError (Some result)]
   else [SetOutputText result])
  ++ [SetIsLoading false].

Section Handlers.

(** [String.prototype.toLowerCase] of the runtime. *)
Variable toLowerCase : jsstring -> jsstring.

(** The string value of each member of [enum Task]. *)
Variable TaskValue : Task -> jsstring.

Definition notConfigured (st : AppState) : list Update :=
  [SetApiError (Some (lit "Error: Task '" ++ TaskValue (selectedTask st)
                      ++ lit "' is not configured correctly."));
   SetIsLoading false].

Definition handleRefine (st : AppState) : Async (list Update) :=
  if negb (truthy (trim (inputText st))) then
    ret [SetApiError (Some (lit "Please enter some text to process."));
         SetOutputText []]
  else
    let started :=
      [SetIsLoading true; SetApiError None; SetOutputText [];
       SetIsCopied false] in
    if Task_eqb (selectedTask st) BANGLISH_TO_ENGLISH then
      (result <- GeminiService.convertBanglishToEnglish
                   (inputText st) (selectedTone st) ;;
       ret (started ++ showResult result))%async
    else
      match taskToLanguageMap (selectedTask st) with
      | Some language =>
          if truthy language then
            (result <- GeminiService.refineText
                         (inputText st) language (selectedTone st) ;;
             ret (started ++ showResult result))%async
          else ret (started ++ notConfigured st)
      | None => ret (started ++ notConfigured st)
      end.

Definition handleAddCustomTone (st : AppState) : list Update :=
  let newTone := trim (customToneInput st) in
  if negb (truthy newTone) then
    [SetFormError (Some (lit "Custom tone cannot be empty."))]
  else if existsb (fun t => streq (toLowerCase t) (toLowerCase newTone))
                  (allTones st) then
    [SetFormError (Some (lit "This tone already exists."))]
  else
    [SetCustomTones (fun prev => prev ++ [newTone]);
     SetCustomToneInput [];
     SetFormError None].

Definition handleRemoveCustomTone (toneToRemove : jsstring) (st : AppState)
  : list Update :=
  SetCustomTones
    (fun prev => List.filter (fun t => negb (streq t toneToRemove)) prev)
  :: (if streq (selectedTone st) toneToRemove
      then [SetSelectedTone (ToneValue PROFESSIONAL)]
      else []).

(** [onChange] of the custom-tone input box. *)
Definition onCustomToneInputChange (value : jsstring) (st : AppState)
  : list Update :=
  SetCustomToneInput value
  :: (if isSet (formError st) then [SetFormError None] else []).

End Handlers.

(** *** The durable store *)

(** [localStorage]: its entries, and whether the browser takes a write
    ([setItem] throws when it does not, as on an exceeded quota). *)
Record LocalStorage : Type := {
  entries : gmap jsstring jsstring;
  accepts : gmap jsstring jsstring -> jsstring -> jsstring -> bool
}.

Definition getItem (key : jsstring) (ls : LocalStorage) : option jsstring :=
  entries ls !! key.

(** [None]: the call threw. *)
Definition setItem (key value : jsstring) (ls : LocalStorage)
  : option LocalStorage :=
  if accepts ls (entries ls) key value
  then Some {| entries := <[key := value]> (entries ls);
               accepts := accepts ls |}
  else None.

(** The effect with dependency [customTones]: write the list, or report the
    failure in the form-error cell. *)
Definition saveCustomTones (st : AppState) (ls : LocalStorage)
  : list Update * LocalStorage :=
  match setItem CUSTOM_TONES_STORAGE_KEY (JSON.stringify (customTones st)) ls with
  | Some ls' => ([], ls')
  | None => ([SetFormError (Some (lit "Could not save custom tones."))], ls)
  end.

(** The component together with the store. *)
Record World : Type := {
  component : AppState;
  storage : LocalStorage
}.

(** React applies the setter calls of a handler and re-renders; the save
    effect runs when [customTones] was replaced. *)
Definition commit (updates : list Update) (w : World) : World :=
  let st := render updates (component w) in
  if existsb replacesCustomTones updates then
    let (reported, ls) := saveCustomTones st (storage w) in
    {| component := render reported st; storage := ls |}
  else {| component := st; storage := storage w |}.

(** The list read back from the store. *)
Definition persistedTones (w : World) : option (list jsstring) :=
  match getItem CUSTOM_TONES_STORAGE_KEY (storage w) with
  | Some text => JSON.parse text
  | None => None
  end.

(** What the user does to the tone list: type a tone and press Add, or
    press the remove button of a tone. *)
Inductive ToneOperation : Type :=
  | AddTone (typed : jsstring)
  | RemoveTone (tone : jsstring).

Section Operations.

Variable toLowerCase : jsstring -> jsstring.

Definition perform (w : World) (op : ToneOperation) : World :=
  match op with
  | AddTone typed =>
      let w1 := commit (onCustomToneInputChange typed (component w)) w in
      commit (handleAddCustomTone toLowerCase (component w1)) w1
  | RemoveTone tone =>
      commit (handleRemoveCustomTone tone (component w)) w
  end.

Definition performAll (ops : list ToneOperation) (w : World) : World :=
  fold_left perform ops w.

(** The same operations replayed on a plain in-memory list: an add appends
    the trimmed tone unless it is empty or a case-insensitive duplicate of a
    predefined or listed tone, a remove drops the tone. *)
Definition replay (l : list jsstring) (op : ToneOperation) : list jsstring :=
  match op with
  | AddTone typed =>
      let tone := trim typed in
      match tone with
      | [] => l
      | _ :: _ =>
          if existsb (fun t => streq (toLowerCase t) (toLowerCase tone))
                     (predefinedTones ++ l)
          then l
          else l ++ [tone]
      end
  | RemoveTone tone =>
      List.filter (fun t => negb (streq t tone)) l
  end.

Definition replayAll (ops : list ToneOperation) (l : list jsstring)
  : list jsstring :=
  fold_left replay ops l.

End Operations.

End App.

Import App.

(** ** The rest of the component: start-up, the controls, the copy button *)

Module Lifecycle.

(** The effect that loads the tones on the first render.  Nothing is read
    when the key is missing or holds the empty string.  [None]: the stored
    text is not the text of an array of strings; what the component does
    then (a parse error reported in the form-error cell, or a value of
    another shape put in the state) is outside this model. *)
Definition loadCustomTones (ls : LocalStorage) : option (list Update) :=
  match getItem CUSTOM_TONES_STORAGE_KEY ls with
  | None => Some []
  | Some storedTones =>
      if truthy storedTones then
        match JSON.parse storedTones with
        | Some tones => Some [SetCustomTones (fun _ => tones)]
        | None => None
        end
      else Some []
  end.

(** The first render and its effects, in the order React runs them: the
    load effect reads the store and queues its setter call; the save effect
    of the same render still sees the initial empty list and writes it; the
    queued calls are applied; the save effect runs again when the load
    replaced the list. *)
Definition mount (ls : LocalStorage) : option World :=
  match loadCustomTones ls with
  | None => None
  | Some loaded =>
      let (reported, ls1) := saveCustomTones initialState ls in
      let st1 := render (loaded ++ reported) initialState in
      if existsb replacesCustomTones loaded then
        let (reported2, ls2) := saveCustomTones st1 ls1 in
        Some {| component := render reported2 st1; storage := ls2 |}
      else Some {| component := st1; storage := ls1 |}
  end.

(** [!predefinedTones.includes(tone)]: the tones that get a remove button. *)
Definition isCustom (tone : jsstring) : bool :=
  negb (existsb (streq tone) predefinedTones).

(** What the user can do with the controls other than the process and copy
    buttons. *)
Inductive Event : Type :=
  | TypeText (value : jsstring)       (* the text area *)
  | ChooseTask (task : Task)          (* one of the task buttons *)
  | ChooseTone (tone : jsstring)      (* one of the tone buttons *)
  | TypeTone (value : jsstring)       (* the custom-tone input *)
  | PressAdd                          (* the Add button, or Enter in the input *)
  | PressRemove (tone : jsstring).    (* the remove button of a tone *)

(** The controls that exist in a given state: a tone button for each entry
    of [allTones], a remove button for those of them that are custom.  The
    buttons are keyed by tone, so this describes the page when the tones on
    display are pairwise different; with a repeated tone the page can keep a
    button that is not listed here. *)
Definition offered (st : AppState) (e : Event) : bool :=
  match e with
  | ChooseTone tone => existsb (streq tone) (allTones st)
  | PressRemove tone => existsb (streq tone) (allTones st) && isCustom tone
  | _ => true
  end.

Section Events.

Variable toLowerCase : jsstring -> jsstring.

(** The setter calls of each control's handler. *)
Definition eventUpdates (e : Event) (st : AppState) : list Update :=
  match e with
  | TypeText value => [SetInputText value]
  | ChooseTask task => [SetSelectedTask task]
  | ChooseTone tone => [SetSelectedTone tone]
  | TypeTone value => onCustomToneInputChange value st
  | PressAdd => handleAddCustomTone toLowerCase st
  | PressRemove tone => handleRemoveCustomTone tone st
  end.

(** One event: nothing happens for a control that is not there. *)
Definition handleEvent (w : World) (e : Event) : World :=
  if offered (component w) e
  then commit (eventUpdates e (component w)) w
  else w.

Definition handleEvents (events : list Event) (w : World) : World :=
  fold_left handleEvent events w.

End Events.

(** [handleCopy]: the setter calls, and the text handed to
    [navigator.clipboard.writeText], if any.  The timer it starts runs
    [copyTimeout] two seconds later. *)
Definition handleCopy (st : AppState) : list Update * option jsstring :=
  if truthy (outputText st)
  then ([SetIsCopied true], Some (outputText st))
  else ([], None).

Definition copyTimeout : list Update := [SetIsCopied false].

End Lifecycle.

Import Lifecycle.

(** A store that takes a write only when the text is at most [limit] code
    units long. *)
Definition smallStore (limit : N) (m : gmap jsstring jsstring) : LocalStorage :=
  {| entries := m;
     accepts := fun _ _ value => N.of_nat (length value) <=? limit |}.

(** ** Remote sides used in the examples *)

(** A remote side that gives the same answer to every request. *)
Definition answering (o : Outcome) : Remote :=
  {| answer := fun _ _ => o;
     undefinedTrimMessage :=
       lit "Cannot read properties of undefined (reading 'trim')" |}.

(** Stand-in string values for [enum Task], used in the examples only. *)
Definition sampleTaskValue (t : Task) : jsstring :=
  match t with
  | REFINE_ENGLISH => lit "Refine English"
  | REFINE_BANGLISH => lit "Refine Banglish"
  | REFINE_BANGLA => lit "Refine Bangla"
  | BANGLISH_TO_ENGLISH => lit "Banglish to English"
  end.

(** The world once the component has mounted over an empty store: the save
    effect has written the empty list.  [willing] tells whether the browser
    takes writes. *)
Definition mountedWorld (willing : bool) : World :=
  {| component := initialState;
     storage :=
       {| entries := {[ CUSTOM_TONES_STORAGE_KEY := JSON.stringify [] ]};
          accepts := fun _ _ _ => willing |} |}.

(** * Properties *)

Example trim_example :
  trim (lit "  hello there ") = lit "hello there".
Proof. reflexivity. Qed.

Example stringify_example :
  JSON.stringify [lit "Formal"; lit "Dry wit"] = [91;34;70;111;114;109;97;108;34;44;34;68;114;121;32;119;105;116;34;93].
Proof. reflexivity. Qed.

Example parse_example :
  JSON.parse (JSON.stringify [lit "Formal"; [34; 92; 55357; 56832; 55357; 7]])
  = Some [lit "Formal"; [34; 92; 55357; 56832; 55357; 7]].
Proof. vm_compute. reflexivity. Qed.

Example refine_prompt_example :
  length (GeminiService.refinePrompt (lit "hi") (lit "English") (lit "Cool")) = 157%nat.
Proof. reflexivity. Qed.

(** ** Strings *)

Section StringFacts.

Lemma streq_spec (a b : jsstring) : streq a b = true <-> a = b.
Proof.
  revert b. induction a as [|x a IH]; intros [|y b]; simpl; split;
    try congruence; try reflexivity.
  - rewrite andb_true_iff, N.eqb_eq, IH. intros [-> ->]. reflexivity.
  - intros E. injection E as -> ->. rewrite N.eqb_refl.
    apply IH. reflexivity.
Qed.

Lemma streq_refl (a : jsstring) : streq a a = true.
Proof. apply streq_spec. reflexivity. Qed.

Lemma streq_false (a b : jsstring) : streq a b = false <-> a <> b.
Proof.
  rewrite <- streq_spec. destruct (streq a b); split; congruence.
Qed.

Lemma trimStart_blank (s : jsstring) :
  trimStart s = [] <-> forallb isWhiteSpace s = true.
Proof.
  induction s as [|c s IH]; simpl.
  - split; reflexivity.
  - destruct (isWhiteSpace c); simpl; [exact IH | split; discriminate].
Qed.

Lemma trimStart_all (s : jsstring) :
  forallb isWhiteSpace s = true -> trimStart s = [].
Proof. apply trimStart_blank. Qed.

(** What [trimStart] leaves is a suffix whose first unit, if any, is not
    whitespace. *)
Lemma trimStart_suffix (s : jsstring) :
  exists ws, s = ws ++ trimStart s /\ forallb isWhiteSpace ws = true.
Proof.
  induction s as [|c s (ws & E & W)]; simpl.
  - exists []. split; reflexivity.
  - destruct (isWhiteSpace c) eqn:Hc.
    + exists (c :: ws). simpl. rewrite Hc, W. split; [congruence | reflexivity].
    + exists []. split; reflexivity.
Qed.

Lemma forallb_rev {A} (f : A -> bool) (l : list A) :
  forallb f (rev l) = forallb f l.
Proof.
  induction l as [|x l IH]; simpl; [reflexivity|].
  rewrite forallb_app, IH. simpl. rewrite andb_true_r. apply andb_comm.
Qed.

(** [!s.trim()] holds exactly for the strings made of whitespace only. *)
Lemma trim_blank (s : jsstring) :
  trim s = [] <-> forallb isWhiteSpace s = true.
Proof.
  unfold trim, trimEnd. split.
  - intros H.
    assert (R : trimStart (rev (trimStart s)) = []).
    { destruct (trimStart (rev (trimStart s))) as [|c l]; [reflexivity|].
      simpl in H. destruct (rev l); discriminate. }
    apply trimStart_blank in R. rewrite forallb_rev in R.
    destruct (trimStart_suffix s) as (ws & E & W).
    rewrite E, forallb_app, W, R. reflexivity.
  - intros H. rewrite (trimStart_all s H). reflexivity.
Qed.

Lemma trim_not_blank (s : jsstring) :
  forallb isWhiteSpace s = false -> truthy (trim s) = true.
Proof.
  intros H. destruct (trim s) eqn:E; [|reflexivity].
  apply trim_blank in E. congruence.
Qed.

Lemma trimStart_head (s : jsstring) (c : N) (rest : jsstring) :
  trimStart s = c :: rest -> isWhiteSpace c = false.
Proof.
  induction s as [|x s IH]; simpl; [discriminate|].
  destruct (isWhiteSpace x) eqn:Hx; [exact IH|].
  intros E. injection E as <- _. exact Hx.
Qed.

(** [trim] removes a run of whitespace at each end and nothing else: what
    is left neither starts nor ends with whitespace. *)
Lemma trim_spec (s : jsstring) :
  exists before after,
    s = before ++ trim s ++ after
    /\ forallb isWhiteSpace before = true
    /\ forallb isWhiteSpace after = true
    /\ (forall c rest, trim s = c :: rest -> isWhiteSpace c = false)
    /\ (forall front c, trim s = front ++ [c] -> isWhiteSpace c = false).
Proof.
  destruct (trimStart_suffix s) as (before & E1 & W1).
  destruct (trimStart_suffix (rev (trimStart s))) as (ws & E2 & W2).
  assert (E3 : trimStart s = trim s ++ rev ws).
  { unfold trim, trimEnd. rewrite <- rev_app_distr, <- E2, rev_involutive.
    reflexivity. }
  exists before, (rev ws). repeat split.
  - rewrite <- E3. exact E1.
  - exact W1.
  - rewrite forallb_rev. exact W2.
  - intros c rest T. rewrite T in E3.
    apply (trimStart_head s c (rest ++ rev ws)). exact E3.
  - intros front c T. unfold trim, trimEnd in T.
    apply (f_equal (@rev N)) in T.
    rewrite rev_involutive, rev_app_distr in T.
    apply (trimStart_head (rev (trimStart s)) c (rev front)). exact T.
Qed.

Lemma truthy_false (s : jsstring) : truthy s = false <-> s = [].
Proof. destruct s; simpl; split; congruence. Qed.

Lemma forallb_app_false {A} (f : A -> bool) (a b : list A) :
  forallb f a = false -> forallb f (a ++ b) = false.
Proof. intros H. rewrite forallb_app, H. reflexivity. Qed.

Lemma startsWith_app (p s : jsstring) : startsWith p (p ++ s) = true.
Proof.
  induction p as [|x p IH]; simpl; [reflexivity|].
  rewrite N.eqb_refl. exact IH.
Qed.

Lemma startsWith_spec (p s : jsstring) :
  startsWith p s = true <-> exists rest, s = p ++ rest.
Proof.
  revert s. induction p as [|x p IH]; intros s; simpl.
  - split; [intros _; exists s; reflexivity | reflexivity].
  - destruct s as [|y s].
    + split; [discriminate | intros (r & E); discriminate].
    + rewrite andb_true_iff, N.eqb_eq, IH. split.
      * intros (-> & r & ->). exists r. reflexivity.
      * intros (r & E). injection E as -> ->. split; [reflexivity|].
        exists r. reflexivity.
Qed.

(** [s.includes(p)] holds exactly when [p] occurs in [s]. *)
Lemma includes_spec (p s : jsstring) :
  includes p s = true <-> exists before after, s = before ++ p ++ after.
Proof.
  induction s as [|c s IH].
  - simpl. rewrite orb_false_r, startsWith_spec. split.
    + intros (r & E). exists [], r. exact E.
    + intros (b & a & E). destruct b; [|discriminate].
      exists a. exact E.
  - cbn [includes]. rewrite orb_true_iff, IH, startsWith_spec. split.
    + intros [(r & E) | (b & a & E)].
      * exists [], r. exact E.
      * exists (c :: b), a. rewrite E. reflexivity.
    + intros (b & a & E). destruct b as [|c' b].
      * left. exists a. exact E.
      * right. injection E as -> ->. exists b, a. reflexivity.
Qed.

Lemma includes_here (p after : jsstring) : includes p (p ++ after) = true.
Proof. apply includes_spec. exists [], after. reflexivity. Qed.

Lemma includes_skip (p before s : jsstring) :
  includes p s = true -> includes p (before ++ s) = true.
Proof.
  rewrite !includes_spec. intros (b & a & ->).
  exists (before ++ b), a. rewrite <- app_assoc. reflexivity.
Qed.

End StringFacts.

(** ** JSON: reading back what was written *)

Section JSONFacts.

Import JSON.

Lemma hexValue_hexDigit (d : N) : d < 16 -> hexValue (hexDigit d) = Some d.
Proof.
  intros H. unfold hexDigit, hexValue.
  destruct (N.ltb_spec d 10).
  - replace ((48 <=? 48 + d) && (48 + d <=? 57)) with true.
    + f_equal. lia.
    + symmetry. apply andb_true_iff. split; apply N.leb_le; lia.
  - replace ((48 <=? 87 + d) && (87 + d <=? 57)) with false.
    + replace ((97 <=? 87 + d) && (87 + d <=? 102)) with true.
      * f_equal. lia.
      * symmetry. apply andb_true_iff. split; apply N.leb_le; lia.
    + symmetry. apply andb_false_iff. right. apply N.leb_gt. lia.
Qed.

Lemma hex4_digits (c : N) :
  c < 65536 ->
  hex4 (hexDigit (c / 4096 mod 16)) (hexDigit (c / 256 mod 16))
       (hexDigit (c / 16 mod 16)) (hexDigit (c mod 16)) = Some c.
Proof.
  intros H. unfold hex4.
  rewrite !hexValue_hexDigit by (apply N.mod_lt; discriminate).
  f_equal.
  assert (D2 : c / 16 / 16 = c / 256) by (rewrite N.Div0.div_div; reflexivity).
  assert (D3 : c / 256 / 16 = c / 4096) by (rewrite N.Div0.div_div; reflexivity).
  pose proof (N.div_mod c 16 ltac:(discriminate)) as E1.
  pose proof (N.div_mod (c / 16) 16 ltac:(discriminate)) as E2.
  pose proof (N.div_mod (c / 256) 16 ltac:(discriminate)) as E3.
  rewrite D2 in E2. rewrite D3 in E3.
  assert (L : c / 4096 < 16) by (apply N.Div0.div_lt_upper_bound; exact H).
  rewrite (N.mod_small (c / 4096) 16 L).
  lia.
Qed.

(** A code unit that needs no escape is read as itself. *)
Lemma parse_raw (c : N) acc items tail :
  c <> 34 -> c <> 92 -> 32 <= c ->
  parseFrom (InString acc) items (c :: tail)
  = parseFrom (InString (c :: acc)) items tail.
Proof.
  intros H1 H2 H3. cbn [parseFrom].
  apply N.eqb_neq in H1, H2. apply N.ltb_ge in H3.
  rewrite H1, H2, H3. reflexivity.
Qed.

Lemma surrogate_raw (c : N) acc items tail :
  isHighSurrogate c || isLowSurrogate c = true ->
  parseFrom (InString acc) items (c :: tail)
  = parseFrom (InString (c :: acc)) items tail.
Proof.
  unfold isHighSurrogate, isLowSurrogate. intros H.
  apply orb_true_iff in H.
  destruct H as [H | H]; apply andb_true_iff in H; destruct H as [L U];
    apply N.leb_le in L, U; apply parse_raw; lia.
Qed.

(** Each escaped code unit is read back as the code unit. *)
Lemma parse_quoteUnit (c : N) acc items tail :
  parseFrom (InString acc) items (quoteUnit c ++ tail)
  = parseFrom (InString (c :: acc)) items tail.
Proof.
  unfold quoteUnit.
  repeat match goal with
         | |- context [if ?c =? ?k then _ else _] =>
             destruct (N.eqb_spec c k) as [-> | ?]; [reflexivity|]
         end.
  destruct ((c <? 32) || isHighSurrogate c || isLowSurrogate c) eqn:E.
  - assert (B : c < 65536).
    { unfold isHighSurrogate, isLowSurrogate in E.
      repeat (apply orb_true_iff in E; destruct E as [E | E]).
      - apply N.ltb_lt in E. lia.
      - apply andb_true_iff in E. destruct E as [_ U].
        apply N.leb_le in U. lia.
      - apply andb_true_iff in E. destruct E as [_ U].
        apply N.leb_le in U. lia. }
    unfold unicodeEscape. cbn [app parseFrom].
    change (92 =? 34) with false. change (92 =? 92) with true.
    change (117 =? 117) with true. cbv iota.
    rewrite (hex4_digits c B). reflexivity.
  - apply orb_false_iff in E. destruct E as [E _].
    apply orb_false_iff in E. destruct E as [E _].
    apply N.ltb_ge in E. apply parse_raw; assumption.
Qed.

(** A quoted string body, up to its closing quote, is read as the string. *)
Lemma parse_quoteBody (s : jsstring) : forall acc items tail,
  parseFrom (InString acc) items (quoteBody s ++ 34 :: tail)
  = parseFrom AfterElement ((rev acc ++ s) :: items) tail.
Proof.
  remember (length s) as n eqn:Hn.
  revert s Hn. induction n as [n IH] using lt_wf_ind.
  intros [|c [|d s]] Hn acc items tail.
  - cbn. rewrite app_nil_r. reflexivity.
  - cbn [quoteBody]. rewrite parse_quoteUnit. cbn. reflexivity.
  - cbn [quoteBody].
    destruct (isHighSurrogate c && isLowSurrogate d) eqn:P.
    + apply andb_true_iff in P. destruct P as [Pc Pd].
      cbn [app].
      rewrite (surrogate_raw c) by (rewrite Pc; reflexivity).
      rewrite (surrogate_raw d) by (rewrite Pd; apply orb_true_r).
      rewrite (IH (length s) ltac:(subst n; simpl; lia) s eq_refl).
      cbn [rev]. rewrite <- !app_assoc. reflexivity.
    + rewrite <- app_assoc, parse_quoteUnit.
      rewrite (IH (length (d :: s)) ltac:(subst n; simpl; lia) (d :: s) eq_refl).
      cbn [rev]. rewrite <- app_assoc. reflexivity.
Qed.

(** What follows the first element of a non-empty array. *)
Local Abbreviation afterFirst l :=
  (match l%list with
   | [] => []
   | _ :: _ => 44 :: joinElements l%list
   end).

Lemma joinElements_cons (s : jsstring) (l : list jsstring) :
  joinElements (s :: l) = quote s ++ afterFirst l.
Proof. destruct l; cbn [joinElements]; [rewrite app_nil_r|]; reflexivity. Qed.

Lemma parse_elements (l : list jsstring) : forall s items,
  parseFrom (InString []) items (quoteBody s ++ 34 :: afterFirst l ++ [93])
  = Some (rev items ++ s :: l).
Proof.
  induction l as [|s' l IH]; intros s items; rewrite parse_quoteBody.
  - cbn. reflexivity.
  - rewrite joinElements_cons. unfold quote.
    cbn [app parseFrom].
    change (isJSONWhiteSpace 44) with false.
    change (isJSONWhiteSpace 34) with false.
    change (44 =? 44) with true. change (34 =? 34) with true. cbv iota.
    rewrite <- !(app_assoc (quoteBody s')). cbn [app rev].
    rewrite IH. cbn [rev]. rewrite <- app_assoc. reflexivity.
Qed.

(** The text [JSON.stringify] writes for a list of strings is read back by
    [JSON.parse] as that list. *)
Lemma parse_stringify (l : list jsstring) :
  JSON.parse (JSON.stringify l) = Some l.
Proof.
  destruct l as [|s l]; [reflexivity|].
  unfold JSON.parse, JSON.stringify. rewrite joinElements_cons. unfold quote.
  cbn [app parseFrom].
  change (isJSONWhiteSpace 91) with false.
  change (isJSONWhiteSpace 34) with false.
  change (91 =? 91) with true. change (34 =? 34) with true. cbv iota.
  rewrite <- !(app_assoc (quoteBody s)). cbn [app].
  rewrite parse_elements. reflexivity.
Qed.

End JSONFacts.

(** ** The prompt services *)

Section PromptService.

Import GeminiService.

(** The two prompt templates always hold visible text, whatever is spliced
    into them. *)
Lemma refinePrompt_not_blank (text language tone : jsstring) :
  truthy (trim (refinePrompt text language tone)) = true.
Proof.
  apply trim_not_blank. unfold refinePrompt.
  apply forallb_app_false. vm_compute. reflexivity.
Qed.

Lemma convertPrompt_not_blank (text tone : jsstring) :
  truthy (trim (convertPrompt text tone)) = true.
Proof.
  apply trim_not_blank. unfold convertPrompt.
  apply forallb_app_false. vm_compute. reflexivity.
Qed.

(** Both prompts quote the text and the tone they were built from. *)
Lemma refinePrompt_includes (text language tone : jsstring) :
  includes text (refinePrompt text language tone) = true
  /\ includes tone (refinePrompt text language tone) = true.
Proof.
  unfold refinePrompt. split.
  - do 7 apply includes_skip. apply includes_here.
  - do 3 apply includes_skip. apply includes_here.
Qed.

Lemma convertPrompt_includes (text tone : jsstring) :
  includes text (convertPrompt text tone) = true
  /\ includes tone (convertPrompt text tone) = true.
Proof.
  unfold convertPrompt. split.
  - do 3 apply includes_skip. apply includes_here.
  - apply includes_skip. apply includes_here.
Qed.

(** [callGemini] on a prompt with visible text: one request, and a result
    fixed by the answer. *)
Lemma callGemini_run (prompt systemInstruction : jsstring) (remote : Remote) :
  truthy (trim prompt) = true ->
  run (callGemini prompt systemInstruction) remote
  = (match answer remote [] (request prompt systemInstruction) with
     | Response (Some text) => trim text
     | Response None =>
         lit "Error: Failed to process text. " ++ undefinedTrimMessage remote
     | Rejects (ErrorObject message) =>
         lit "Error: Failed to process text. " ++ message
     | Rejects NonError =>
         lit "An unknown error occurred while processing text."
     end,
     [request prompt systemInstruction]).
Proof.
  intros H. unfold callGemini, run. rewrite H. cbn [negb].
  unfold bind, tryGenerate, bind, generateContent.
  destruct (answer remote [] (request prompt systemInstruction))
    as [[text|] | [message|]]; reflexivity.
Qed.

Lemma callGemini_blank (prompt systemInstruction : jsstring) (remote : Remote) :
  truthy (trim prompt) = false ->
  run (callGemini prompt systemInstruction) remote = ([], []).
Proof. intros H. unfold callGemini, run. rewrite H. reflexivity. Qed.

Lemma refineText_run (text language tone : jsstring) (remote : Remote) :
  run (refineText text language tone) remote
  = (match answer remote []
             (request (refinePrompt text language tone) refineSystemInstruction)
     with
     | Response (Some response) => trim response
     | Response None =>
         lit "Error: Failed to process text. " ++ undefinedTrimMessage remote
     | Rejects (ErrorObject message) =>
         lit "Error: Failed to process text. " ++ message
     | Rejects NonError =>
         lit "An unknown error occurred while processing text."
     end,
     [request (refinePrompt text language tone) refineSystemInstruction]).
Proof. apply callGemini_run, refinePrompt_not_blank. Qed.

Lemma convertBanglishToEnglish_run (text tone : jsstring) (remote : Remote) :
  run (convertBanglishToEnglish text tone) remote
  = (match answer remote []
             (request (convertPrompt text tone) convertSystemInstruction)
     with
     | Response (Some response) => trim response
     | Response None =>
         lit "Error: Failed to process text. " ++ undefinedTrimMessage remote
     | Rejects (ErrorObject message) =>
         lit "Error: Failed to process text. " ++ message
     | Rejects NonError =>
         lit "An unknown error occurred while processing text."
     end,
     [request (convertPrompt text tone) convertSystemInstruction]).
Proof. apply callGemini_run, convertPrompt_not_blank. Qed.

(** [refineText] of src/services/geminiService.ts on a text with visible
    characters. *)
Lemma src_refineText_run (text : jsstring) (language : SrcGeminiService.Language)
    (tone : jsstring) (remote : Remote) :
  truthy (trim text) = true ->
  run (SrcGeminiService.refineText text language tone) remote
  = (match answer remote []
             (SrcGeminiService.request
                (SrcGeminiService.promptText
                   text (SrcGeminiService.LanguageValue language) tone)
                SrcGeminiService.systemInstructionText)
     with
     | Response (Some response) => trim response
     | Response None =>
         lit "Error: Failed to refine text. " ++ undefinedTrimMessage remote
     | Rejects (ErrorObject message) =>
         lit "Error: Failed to refine text. " ++ message
     | Rejects NonError =>
         lit "An unknown error occurred while refining text."
     end,
     [SrcGeminiService.request
        (SrcGeminiService.promptText
           text (SrcGeminiService.LanguageValue language) tone)
        SrcGeminiService.systemInstructionText]).
Proof.
  intros H. unfold SrcGeminiService.refineText, run. rewrite H. cbn [negb].
  unfold bind, SrcGeminiService.tryGenerate, bind, generateContent.
  match goal with
  | |- context [answer remote [] ?r] =>
      destruct (answer remote [] r) as [[response|] | [message|]]
  end; reflexivity.
Qed.

(** The sibling service does skip the network on a blank text. *)
Lemma src_refineText_blank (text : jsstring)
    (language : SrcGeminiService.Language) (tone : jsstring) (remote : Remote) :
  forallb isWhiteSpace text = true ->
  run (SrcGeminiService.refineText text language tone) remote = ([], []).
Proof.
  intros H. apply trim_blank in H.
  unfold SrcGeminiService.refineText, run. rewrite H. reflexivity.
Qed.

End PromptService.

(** ** Claims about the prompt services *)

Section PromptServiceClaims.

Import GeminiService.

(** C1 (the refactored service misses it).  A blank input text should give
    the empty string with no request.  [callGemini] tests the assembled
    prompt, which is never blank, instead of the text: on the texts [   ] and
    the empty string both operations send one request and return the
    trimmed answer. *)
Theorem C1_blank_text_reaches_the_api :
  run (convertBanglishToEnglish (lit "   ") (lit "Casual"))
      (answering (Response (Some (lit "Sure!"))))
  = (lit "Sure!",
     [request (convertPrompt (lit "   ") (lit "Casual"))
              convertSystemInstruction])
  /\ run (refineText [] (lit "English") (lit "Casual"))
         (answering (Response (Some (lit "Sure!"))))
     = (lit "Sure!",
        [request (refinePrompt [] (lit "English") (lit "Casual"))
                 refineSystemInstruction]).
Proof. split; vm_compute; reflexivity. Qed.

(** The guard of [callGemini] never fires from the two exported operations:
    whatever the text, exactly one request is sent. *)
Lemma callGemini_operations_always_call (text language tone : jsstring)
    (remote : Remote) :
  length (snd (run (refineText text language tone) remote)) = 1%nat
  /\ length (snd (run (convertBanglishToEnglish text tone) remote)) = 1%nat.
Proof.
  rewrite refineText_run, convertBanglishToEnglish_run. split; reflexivity.
Qed.

(** C2 as stated fails: a thrown value that is not an [Error] instance gives
    a result without the marker. *)
Lemma C2_non_error_fault_has_no_marker :
  answer (answering (Rejects NonError)) []
         (request (convertPrompt (lit "hello") (lit "Casual"))
                  convertSystemInstruction)
  = Rejects NonError
  /\ fst (run (convertBanglishToEnglish (lit "hello") (lit "Casual"))
              (answering (Rejects NonError)))
     = lit "An unknown error occurred while processing text."
  /\ startsWith (lit "Error:")
       (fst (run (convertBanglishToEnglish (lit "hello") (lit "Casual"))
                 (answering (Rejects NonError))))
     = false.
Proof. repeat split; vm_compute; reflexivity. Qed.

(** C2 (amended).  When the call rejects with [e], every operation returns a
    string and nothing is thrown on: for an [Error] instance the marker, a
    fixed sentence and the error's message; for any other thrown value the
    fixed unknown-error sentence, which does not carry the marker. *)
Theorem C2_faults_become_result_strings
    (remote : Remote) (text language tone : jsstring)
    (lang : SrcGeminiService.Language) (e : Thrown) :
  (answer remote []
     (request (refinePrompt text language tone) refineSystemInstruction)
   = Rejects e ->
   fst (run (refineText text language tone) remote)
   = match e with
     | ErrorObject message => lit "Error: Failed to process text. " ++ message
     | NonError => lit "An unknown error occurred while processing text."
     end)
  /\ (answer remote []
        (request (convertPrompt text tone) convertSystemInstruction)
      = Rejects e ->
      fst (run (convertBanglishToEnglish text tone) remote)
      = match e with
        | ErrorObject message =>
            lit "Error: Failed to process text. " ++ message
        | NonError => lit "An unknown error occurred while processing text."
        end)
  /\ (truthy (trim text) = true ->
      answer remote []
        (SrcGeminiService.request
           (SrcGeminiService.promptText
              text (SrcGeminiService.LanguageValue lang) tone)
           SrcGeminiService.systemInstructionText)
      = Rejects e ->
      fst (run (SrcGeminiService.refineText text lang tone) remote)
      = match e with
        | ErrorObject message =>
            lit "Error: Failed to refine text. " ++ message
        | NonError => lit "An unknown error occurred while refining text."
        end)
  /\ (forall message : jsstring,
        startsWith (lit "Error:")
          (lit "Error: Failed to process text. " ++ message) = true
        /\ startsWith (lit "Error:")
             (lit "Error: Failed to refine text. " ++ message) = true)
  /\ startsWith (lit "Error:")
       (lit "An unknown error occurred while processing text.") = false
  /\ startsWith (lit "Error:")
       (lit "An unknown error occurred while refining text.") = false.
Proof.
  repeat split.
  - intros H. rewrite refineText_run, H. destruct e; reflexivity.
  - intros H. rewrite convertBanglishToEnglish_run, H. destruct e; reflexivity.
  - intros T H. rewrite (src_refineText_run _ _ _ _ T), H.
    destruct e; reflexivity.
Qed.

Lemma C2_faults_become_result_strings_witness :
  fst (run (refineText (lit "hello") (lit "English") (lit "Casual"))
           (answering (Rejects (ErrorObject (lit "network down")))))
  = lit "Error: Failed to process text. network down"
  /\ fst (run (SrcGeminiService.refineText
                 (lit "hello") SrcGeminiService.ENGLISH (lit "Casual"))
              (answering (Rejects NonError)))
     = lit "An unknown error occurred while refining text.".
Proof.
  split.
  - apply (C2_faults_become_result_strings
             (answering (Rejects (ErrorObject (lit "network down"))))
             (lit "hello") (lit "English") (lit "Casual")
             SrcGeminiService.ENGLISH (ErrorObject (lit "network down"))).
    reflexivity.
  - apply (C2_faults_become_result_strings
             (answering (Rejects NonError))
             (lit "hello") (lit "English") (lit "Casual")
             SrcGeminiService.ENGLISH NonError);
      reflexivity.
Defined.

(** A response without text: [undefined.trim()] throws inside the [try], and
    the [TypeError] takes the same path as any other [Error]. *)
Lemma undefined_text_is_reported (text tone : jsstring) (remote : Remote) :
  answer remote [] (request (convertPrompt text tone) convertSystemInstruction)
  = Response None ->
  fst (run (convertBanglishToEnglish text tone) remote)
  = lit "Error: Failed to process text. " ++ undefinedTrimMessage remote.
Proof. intros H. rewrite convertBanglishToEnglish_run, H. reflexivity. Qed.

End PromptServiceClaims.

(** ** The Process action *)

Section ProcessAction.

Variable TaskValue : Task -> jsstring.

(** The setter calls made before the service is awaited. *)
Local Abbreviation started :=
  [SetIsLoading true; SetApiError None; SetOutputText []; SetIsCopied false].

Lemma handleRefine_blank (st : AppState) (remote : Remote) :
  truthy (trim (inputText st)) = false ->
  run (handleRefine TaskValue st) remote
  = ([SetApiError (Some (lit "Please enter some text to process."));
      SetOutputText []],
     []).
Proof. intros H. unfold handleRefine, run. rewrite H. reflexivity. Qed.

Lemma handleRefine_convert (st : AppState) (remote : Remote) :
  truthy (trim (inputText st)) = true ->
  selectedTask st = BANGLISH_TO_ENGLISH ->
  run (handleRefine TaskValue st) remote
  = (started ++ showResult
       (fst (run (GeminiService.convertBanglishToEnglish
                    (inputText st) (selectedTone st)) remote)),
     snd (run (GeminiService.convertBanglishToEnglish
                 (inputText st) (selectedTone st)) remote)).
Proof.
  intros H T. unfold handleRefine, run. rewrite H, T. cbn [negb Task_eqb].
  unfold bind.
  destruct (GeminiService.convertBanglishToEnglish _ _ remote []).
  reflexivity.
Qed.

Lemma handleRefine_refine (st : AppState) (language : jsstring)
    (remote : Remote) :
  truthy (trim (inputText st)) = true ->
  taskToLanguageMap (selectedTask st) = Some language ->
  run (handleRefine TaskValue st) remote
  = (started ++ showResult
       (fst (run (GeminiService.refineText
                    (inputText st) language (selectedTone st)) remote)),
     snd (run (GeminiService.refineText
                 (inputText st) language (selectedTone st)) remote)).
Proof.
  intros H T. unfold handleRefine, run. rewrite H. cbn [negb].
  assert (L : truthy language = true).
  { destruct (selectedTask st); simpl in T; inversion T; reflexivity. }
  assert (N : Task_eqb (selectedTask st) BANGLISH_TO_ENGLISH = false).
  { destruct (selectedTask st); simpl in T; try discriminate; reflexivity. }
  rewrite N, T, L. unfold bind.
  destruct (GeminiService.refineText _ _ _ remote []).
  reflexivity.
Qed.

(** Every task is either the conversion or has a language: the
    not-configured branch is never taken. *)
Lemma task_cases (t : Task) :
  t = BANGLISH_TO_ENGLISH \/ exists language, taskToLanguageMap t = Some language.
Proof. destruct t; [right; eexists; reflexivity ..| left; reflexivity]. Qed.

(** What the process action does with a result that carries the marker. *)
Lemma showResult_error (result : jsstring) (st : AppState) :
  startsWith (lit "Error:") result = true ->
  apiError (render (started ++ showResult result) st) = Some result
  /\ outputText (render (started ++ showResult result) st) = []
  /\ isLoading (render (started ++ showResult result) st) = false.
Proof.
  intros H. unfold showResult. rewrite H. repeat split.
Qed.

Lemma showResult_output (result : jsstring) (st : AppState) :
  startsWith (lit "Error:") result = false ->
  apiError (render (started ++ showResult result) st) = None
  /\ outputText (render (started ++ showResult result) st) = result
  /\ isLoading (render (started ++ showResult result) st) = false.
Proof.
  intros H. unfold showResult. rewrite H. repeat split.
Qed.

(** The service called on a visible input, whatever the task. *)
Lemma handleRefine_calls_service (st : AppState) (remote : Remote) :
  truthy (trim (inputText st)) = true ->
  exists prompt systemInstruction,
    run (handleRefine TaskValue st) remote
    = (started ++ showResult
         (fst (run (GeminiService.callGemini prompt systemInstruction) remote)),
       [GeminiService.request prompt systemInstruction])
    /\ truthy (trim prompt) = true.
Proof.
  intros H. destruct (task_cases (selectedTask st)) as [T | (language & T)].
  - exists (GeminiService.convertPrompt (inputText st) (selectedTone st)),
      GeminiService.convertSystemInstruction.
    rewrite (handleRefine_convert st remote H T).
    split; [|apply convertPrompt_not_blank].
    unfold GeminiService.convertBanglishToEnglish.
    rewrite (callGemini_run _ _ remote (convertPrompt_not_blank _ _)).
    reflexivity.
  - exists (GeminiService.refinePrompt (inputText st) language (selectedTone st)),
      GeminiService.refineSystemInstruction.
    rewrite (handleRefine_refine st language remote H T).
    split; [|apply refinePrompt_not_blank].
    unfold GeminiService.refineText.
    rewrite (callGemini_run _ _ remote (refinePrompt_not_blank _ _ _)).
    reflexivity.
Qed.

End ProcessAction.

Section ProcessClaims.

Import GeminiService.

(** C3.  When the call rejects with an [Error] whose message is
    [quota exceeded], the operations built on [callGemini] return exactly
    [Error: Failed to process text. quota exceeded] and the first service
    returns [Error: Failed to refine text. quota exceeded]; the process
    action stores the string in the API-error cell and the output cell is
    empty. *)
Theorem C3_quota_exceeded_goes_to_the_api_error
    (TaskValue : Task -> jsstring) (remote : Remote) (st : AppState)
    (text language tone : jsstring) (lang : SrcGeminiService.Language) :
  (forall log req,
      answer remote log req = Rejects (ErrorObject (lit "quota exceeded"))) ->
  truthy (trim (inputText st)) = true ->
  truthy (trim text) = true ->
  fst (run (refineText text language tone) remote)
  = lit "Error: Failed to process text. quota exceeded"
  /\ fst (run (convertBanglishToEnglish text tone) remote)
     = lit "Error: Failed to process text. quota exceeded"
  /\ fst (run (SrcGeminiService.refineText text lang tone) remote)
     = lit "Error: Failed to refine text. quota exceeded"
  /\ apiError (render (fst (run (handleRefine TaskValue st) remote)) st)
     = Some (lit "Error: Failed to process text. quota exceeded")
  /\ outputText (render (fst (run (handleRefine TaskValue st) remote)) st) = []
  /\ apiError
       (render (showResult (lit "Error: Failed to refine text. quota exceeded"))
               (render [SetIsLoading true; SetApiError None; SetOutputText [];
                        SetIsCopied false] st))
     = Some (lit "Error: Failed to refine text. quota exceeded")
  /\ outputText
       (render (showResult (lit "Error: Failed to refine text. quota exceeded"))
               (render [SetIsLoading true; SetApiError None; SetOutputText [];
                        SetIsCopied false] st))
     = [].
Proof.
  intros Q I T.
  rewrite refineText_run, convertBanglishToEnglish_run,
    (src_refineText_run _ _ _ _ T), !Q.
  repeat (split; [reflexivity|]).
  destruct (handleRefine_calls_service TaskValue st remote I)
    as (prompt & systemInstruction & -> & P).
  rewrite (callGemini_run _ _ remote P), Q.
  repeat split.
Qed.

Lemma C3_quota_exceeded_witness :
  apiError
    (render
       (fst (run (handleRefine sampleTaskValue
                    (render [SetInputText (lit "hello there")] initialState))
                 (answering (Rejects (ErrorObject (lit "quota exceeded"))))))
       (render [SetInputText (lit "hello there")] initialState))
  = Some (lit "Error: Failed to process text. quota exceeded").
Proof.
  apply (C3_quota_exceeded_goes_to_the_api_error
           sampleTaskValue
           (answering (Rejects (ErrorObject (lit "quota exceeded"))))
           (render [SetInputText (lit "hello there")] initialState)
           (lit "hello there") (lit "English") (lit "Casual")
           SrcGeminiService.ENGLISH).
  - intros log req. reflexivity.
  - reflexivity.
  - reflexivity.
Defined.

(** C4.  For every non-empty input text, that is, every text with a
    character that is not whitespace (the blank texts are the other case of
    the same contract), each operation sends exactly one request, with the
    model [gemini-2.5-flash], temperature 0.8 and top-p 0.9. *)
Theorem C4_one_request_with_fixed_parameters
    (remote : Remote) (text language tone : jsstring)
    (lang : SrcGeminiService.Language) :
  truthy (trim text) = true ->
  (exists req,
      snd (run (refineText text language tone) remote) = [req]
      /\ contents req = refinePrompt text language tone
      /\ model req = lit "gemini-2.5-flash"
      /\ temperature (config req) = QArith_base.Qmake 8 10
      /\ topP (config req) = QArith_base.Qmake 9 10)
  /\ (exists req,
         snd (run (convertBanglishToEnglish text tone) remote) = [req]
         /\ contents req = convertPrompt text tone
         /\ model req = lit "gemini-2.5-flash"
         /\ temperature (config req) = QArith_base.Qmake 8 10
         /\ topP (config req) = QArith_base.Qmake 9 10)
  /\ (exists req,
         snd (run (SrcGeminiService.refineText text lang tone) remote) = [req]
         /\ contents req
            = SrcGeminiService.promptText
                text (SrcGeminiService.LanguageValue lang) tone
         /\ model req = lit "gemini-2.5-flash"
         /\ temperature (config req) = QArith_base.Qmake 8 10
         /\ topP (config req) = QArith_base.Qmake 9 10).
Proof.
  intros T.
  rewrite refineText_run, convertBanglishToEnglish_run,
    (src_refineText_run _ _ _ _ T).
  repeat split; eexists; repeat split.
Qed.

Lemma C4_one_request_witness :
  exists req,
    snd (run (convertBanglishToEnglish (lit "ami bhalo achi") (lit "Cool"))
             (answering (Response (Some (lit "I am fine.")))))
    = [req]
    /\ contents req = convertPrompt (lit "ami bhalo achi") (lit "Cool")
    /\ model req = lit "gemini-2.5-flash"
    /\ temperature (config req) = QArith_base.Qmake 8 10
    /\ topP (config req) = QArith_base.Qmake 9 10.
Proof.
  apply (C4_one_request_with_fixed_parameters
           (answering (Response (Some (lit "I am fine."))))
           (lit "ami bhalo achi") (lit "English") (lit "Cool")
           SrcGeminiService.ENGLISH).
  reflexivity.
Defined.

(** C7 as stated fails: on a blank input the form-error cell is not set;
    the message goes to the API-error cell. *)
Lemma C7_blank_input_sets_no_form_error :
  formError
    (render
       (fst (run (handleRefine sampleTaskValue
                    (render [SetInputText (lit "   ")] initialState))
                 (answering (Response (Some (lit "Sure!"))))))
       (render [SetInputText (lit "   ")] initialState))
  = None
  /\ apiError
       (render
          (fst (run (handleRefine sampleTaskValue
                       (render [SetInputText (lit "   ")] initialState))
                    (answering (Response (Some (lit "Sure!"))))))
          (render [SetInputText (lit "   ")] initialState))
     = Some (lit "Please enter some text to process.").
Proof. split; reflexivity. Qed.

(** C7 (amended).  On a blank input the process action sends no request and
    does not call the service; it puts [Please enter some text to process.]
    in the API-error cell, empties the output cell and changes nothing
    else, the form-error cell included. *)
Theorem C7_blank_input_aborts
    (TaskValue : Task -> jsstring) (st : AppState) (remote : Remote) :
  forallb isWhiteSpace (inputText st) = true ->
  snd (run (handleRefine TaskValue st) remote) = []
  /\ render (fst (run (handleRefine TaskValue st) remote)) st
     = {| inputText := inputText st;
          selectedTask := selectedTask st;
          selectedTone := selectedTone st;
          outputText := [];
          isLoading := isLoading st;
          apiError := Some (lit "Please enter some text to process.");
          formError := formError st;
          isCopied := isCopied st;
          customTones := customTones st;
          customToneInput := customToneInput st |}.
Proof.
  intros B. apply trim_blank in B.
  rewrite (handleRefine_blank TaskValue st remote)
    by (rewrite B; reflexivity).
  split; reflexivity.
Qed.

Lemma C7_blank_input_aborts_witness :
  snd (run (handleRefine sampleTaskValue
              (render [SetInputText (lit "   ")] initialState))
           (answering (Response (Some (lit "Sure!")))))
  = [].
Proof.
  apply (C7_blank_input_aborts
           sampleTaskValue
           (render [SetInputText (lit "   ")] initialState)
           (answering (Response (Some (lit "Sure!"))))).
  reflexivity.
Defined.

(** C8.  Input [hello there], task refine-as-English, tone [Casual]:
    exactly one request is logged, the prompt that request carries holds
    both [hello there] and [Casual], and when the API answers the request
    with a text, what is returned is that text trimmed.  The process action
    on a state with this input, task and tone logs that same request. *)
Theorem C8_hello_there_casual
    (TaskValue : Task -> jsstring) (remote : Remote) (response : jsstring) :
  taskToLanguageMap REFINE_ENGLISH = Some (lit "English")
  /\ exists req,
       snd (run (refineText (lit "hello there") (lit "English") (lit "Casual"))
                remote)
       = [req]
       /\ includes (lit "hello there") (contents req) = true
       /\ includes (lit "Casual") (contents req) = true
       /\ contents req
          = refinePrompt (lit "hello there") (lit "English") (lit "Casual")
       /\ (answer remote [] req = Response (Some response) ->
           fst (run (refineText (lit "hello there") (lit "English")
                       (lit "Casual"))
                    remote)
           = trim response)
       /\ (forall st,
             inputText st = lit "hello there" ->
             selectedTask st = REFINE_ENGLISH ->
             selectedTone st = lit "Casual" ->
             snd (run (handleRefine TaskValue st) remote) = [req]).
Proof.
  split; [reflexivity|].
  exists (request
            (refinePrompt (lit "hello there") (lit "English") (lit "Casual"))
            refineSystemInstruction).
  rewrite refineText_run.
  split; [reflexivity|].
  split; [vm_compute; reflexivity|].
  split; [vm_compute; reflexivity|].
  split; [reflexivity|].
  split.
  - intros ->. reflexivity.
  - intros st I T S.
    rewrite (handleRefine_refine TaskValue st (lit "English") remote).
    + rewrite I, S, refineText_run. reflexivity.
    + rewrite I. reflexivity.
    + rewrite T. reflexivity.
Qed.

Lemma C8_hello_there_casual_witness :
  fst (run (refineText (lit "hello there") (lit "English") (lit "Casual"))
           (answering (Response (Some (lit "  Hey there!
")))))
  = lit "Hey there!".
Proof.
  destruct (C8_hello_there_casual
              sampleTaskValue
              (answering (Response (Some (lit "  Hey there!
"))))
              (lit "  Hey there!
"))
    as (_ & req & _ & _ & _ & _ & R & _).
  exact (R eq_refl).
Defined.

End ProcessClaims.

(** ** The custom-tone actions *)

Section ToneActions.

Variable toLowerCase : jsstring -> jsstring.

Lemma duplicate_spec (tone : jsstring) (tones : list jsstring) :
  existsb (fun t => streq (toLowerCase t) (toLowerCase tone)) tones = true
  <-> exists t, In t tones /\ toLowerCase t = toLowerCase tone.
Proof.
  rewrite existsb_exists. split; intros (t & I & E); exists t; split;
    try exact I; apply streq_spec; exact E.
Qed.

Lemma duplicate_none (tone : jsstring) (tones : list jsstring) :
  (forall t, In t tones -> toLowerCase t <> toLowerCase tone) ->
  existsb (fun t => streq (toLowerCase t) (toLowerCase tone)) tones = false.
Proof.
  intros H.
  destruct (existsb _ tones) eqn:E; [|reflexivity].
  apply duplicate_spec in E. destruct E as (t & I & E).
  exfalso. exact (H t I E).
Qed.

(** The three outcomes of the add action. *)
Lemma handleAddCustomTone_empty (st : AppState) :
  trim (customToneInput st) = [] ->
  handleAddCustomTone toLowerCase st
  = [SetFormError (Some (lit "Custom tone cannot be empty."))].
Proof. intros H. unfold handleAddCustomTone. rewrite H. reflexivity. Qed.

Lemma handleAddCustomTone_duplicate (st : AppState) :
  trim (customToneInput st) <> [] ->
  (exists t, In t (allTones st)
             /\ toLowerCase t = toLowerCase (trim (customToneInput st))) ->
  handleAddCustomTone toLowerCase st
  = [SetFormError (Some (lit "This tone already exists."))].
Proof.
  intros N D. unfold handleAddCustomTone.
  destruct (trim (customToneInput st)) as [|c r] eqn:E; [congruence|].
  cbn [truthy negb]. apply duplicate_spec in D. rewrite D. reflexivity.
Qed.

Lemma handleAddCustomTone_new (st : AppState) :
  trim (customToneInput st) <> [] ->
  (forall t, In t (allTones st) ->
             toLowerCase t <> toLowerCase (trim (customToneInput st))) ->
  handleAddCustomTone toLowerCase st
  = [SetCustomTones (fun prev => prev ++ [trim (customToneInput st)]);
     SetCustomToneInput [];
     SetFormError None].
Proof.
  intros N D. unfold handleAddCustomTone.
  destruct (trim (customToneInput st)) as [|c r] eqn:E; [congruence|].
  cbn [truthy negb]. rewrite (duplicate_none _ _ D). reflexivity.
Qed.

(** The filter of the remove action drops exactly the occurrences of the
    tone. *)
Lemma filter_remove (tone : jsstring) (l : list jsstring) :
  List.filter (fun t => negb (streq t tone)) l
  = List.remove jsstring_eq_dec tone l.
Proof.
  induction l as [|t l IH]; [reflexivity|].
  cbn [List.filter List.remove].
  destruct (jsstring_eq_dec tone t) as [<- | N].
  - rewrite streq_refl. exact IH.
  - assert (F : streq t tone = false) by (apply streq_false; congruence).
    rewrite F, IH. reflexivity.
Qed.

Lemma count_occ_remove_other (tone t : jsstring) (l : list jsstring) :
  t <> tone ->
  count_occ jsstring_eq_dec (List.remove jsstring_eq_dec tone l) t
  = count_occ jsstring_eq_dec l t.
Proof.
  intros N. induction l as [|x l IH]; [reflexivity|].
  cbn [List.remove]. destruct (jsstring_eq_dec tone x) as [<- | D].
  - rewrite IH. symmetry. apply count_occ_cons_neq. congruence.
  - cbn [count_occ]. destruct (jsstring_eq_dec x t); rewrite IH; reflexivity.
Qed.

End ToneActions.

Section ToneClaims.

(** C5.  The add action trims the pending input.  An empty trimmed input
    sets the form error [Custom tone cannot be empty.] and leaves the list
    as it is; a trimmed input equal, case-insensitively, to a predefined or
    custom tone sets a form error and leaves the list as it is; any other
    trimmed input is appended to the custom tones and the input field is
    cleared. *)
Theorem C5_add_custom_tone
    (toLowerCase : jsstring -> jsstring) (st : AppState) :
  (trim (customToneInput st) = [] ->
   formError (render (handleAddCustomTone toLowerCase st) st)
   = Some (lit "Custom tone cannot be empty.")
   /\ customTones (render (handleAddCustomTone toLowerCase st) st)
      = customTones st)
  /\ (trim (customToneInput st) <> [] ->
      (exists t, In t (predefinedTones ++ customTones st)
                 /\ toLowerCase t = toLowerCase (trim (customToneInput st))) ->
      formError (render (handleAddCustomTone toLowerCase st) st)
      = Some (lit "This tone already exists.")
      /\ customTones (render (handleAddCustomTone toLowerCase st) st)
         = customTones st)
  /\ (trim (customToneInput st) <> [] ->
      (forall t, In t (predefinedTones ++ customTones st) ->
                 toLowerCase t <> toLowerCase (trim (customToneInput st))) ->
      customTones (render (handleAddCustomTone toLowerCase st) st)
      = customTones st ++ [trim (customToneInput st)]
      /\ customToneInput (render (handleAddCustomTone toLowerCase st) st) = []
      /\ formError (render (handleAddCustomTone toLowerCase st) st) = None).
Proof.
  repeat split.
  - rewrite handleAddCustomTone_empty by assumption. reflexivity.
  - rewrite handleAddCustomTone_empty by assumption. reflexivity.
  - rewrite handleAddCustomTone_duplicate by assumption. reflexivity.
  - rewrite handleAddCustomTone_duplicate by assumption. reflexivity.
  - rewrite handleAddCustomTone_new by assumption. reflexivity.
  - rewrite handleAddCustomTone_new by assumption. reflexivity.
  - rewrite handleAddCustomTone_new by assumption. reflexivity.
Qed.

Lemma C5_add_custom_tone_witness :
  formError
    (render (handleAddCustomTone asciiToLowerCase
               (render [SetCustomToneInput (lit "  casual ")] initialState))
            (render [SetCustomToneInput (lit "  casual ")] initialState))
  = Some (lit "This tone already exists.")
  /\ customTones
       (render (handleAddCustomTone asciiToLowerCase
                  (render [SetCustomToneInput (lit " Formal ")] initialState))
               (render [SetCustomToneInput (lit " Formal ")] initialState))
     = [lit "Formal"]
  /\ formError
       (render (handleAddCustomTone asciiToLowerCase
                  (render [SetCustomToneInput (lit "   ")] initialState))
               (render [SetCustomToneInput (lit "   ")] initialState))
     = Some (lit "Custom tone cannot be empty.").
Proof.
  split; [|split].
  - apply (C5_add_custom_tone asciiToLowerCase
             (render [SetCustomToneInput (lit "  casual ")] initialState)).
    + discriminate.
    + exists (lit "Casual"). split; [vm_compute; tauto | reflexivity].
  - apply (C5_add_custom_tone asciiToLowerCase
             (render [SetCustomToneInput (lit " Formal ")] initialState)).
    + discriminate.
    + intros t I. vm_compute in I.
      repeat (destruct I as [<- | I]; [discriminate|]). destruct I.
  - apply (C5_add_custom_tone asciiToLowerCase
             (render [SetCustomToneInput (lit "   ")] initialState)).
    reflexivity.
Defined.

(** C6.  The remove action takes the named tone out of the custom list and
    keeps every other entry; when the tone was the selected one, the
    selection goes back to [Professional]. *)
Theorem C6_remove_custom_tone (tone : jsstring) (st : AppState) :
  ~ In tone (customTones (render (handleRemoveCustomTone tone st) st))
  /\ (forall t, t <> tone ->
        count_occ jsstring_eq_dec
          (customTones (render (handleRemoveCustomTone tone st) st)) t
        = count_occ jsstring_eq_dec (customTones st) t)
  /\ (selectedTone st = tone ->
      selectedTone (render (handleRemoveCustomTone tone st) st)
      = lit "Professional").
Proof.
  assert (E : customTones (render (handleRemoveCustomTone tone st) st)
              = List.remove jsstring_eq_dec tone (customTones st)).
  { unfold handleRemoveCustomTone.
    destruct (streq (selectedTone st) tone); cbn; apply filter_remove. }
  rewrite E. split; [apply remove_In|]. split.
  - intros t N. apply count_occ_remove_other. exact N.
  - intros S. unfold handleRemoveCustomTone.
    rewrite S, streq_refl. reflexivity.
Qed.

Lemma C6_remove_custom_tone_witness :
  selectedTone
    (render (handleRemoveCustomTone (lit "Formal")
               (render [SetCustomTones (fun _ => [lit "Formal"; lit "Witty"]);
                        SetSelectedTone (lit "Formal")] initialState))
            (render [SetCustomTones (fun _ => [lit "Formal"; lit "Witty"]);
                     SetSelectedTone (lit "Formal")] initialState))
  = lit "Professional".
Proof.
  apply (C6_remove_custom_tone (lit "Formal")
           (render [SetCustomTones (fun _ => [lit "Formal"; lit "Witty"]);
                    SetSelectedTone (lit "Formal")] initialState)).
  reflexivity.
Defined.

(** C10.  The remove action compares by exact string equality and drops
    every equal entry of the custom list, nothing else; the four predefined
    tones stay at the head of the combined list; when the removed tone is
    not the selected one, every cell other than the custom list keeps its
    value. *)
Theorem C10_remove_is_exact_and_framed (tone : jsstring) (st : AppState) :
  customTones (render (handleRemoveCustomTone tone st) st)
  = List.remove jsstring_eq_dec tone (customTones st)
  /\ (forall t,
        In t (customTones (render (handleRemoveCustomTone tone st) st))
        <-> In t (customTones st) /\ t <> tone)
  /\ allTones (render (handleRemoveCustomTone tone st) st)
     = [lit "Professional"; lit "Casual"; lit "Crazy"; lit "Cool"]
         ++ List.remove jsstring_eq_dec tone (customTones st)
  /\ (selectedTone st <> tone ->
      render (handleRemoveCustomTone tone st) st
      = {| inputText := inputText st;
           selectedTask := selectedTask st;
           selectedTone := selectedTone st;
           outputText := outputText st;
           isLoading := isLoading st;
           apiError := apiError st;
           formError := formError st;
           isCopied := isCopied st;
           customTones := List.remove jsstring_eq_dec tone (customTones st);
           customToneInput := customToneInput st |}).
Proof.
  assert (E : customTones (render (handleRemoveCustomTone tone st) st)
              = List.remove jsstring_eq_dec tone (customTones st)).
  { unfold handleRemoveCustomTone.
    destruct (streq (selectedTone st) tone); cbn; apply filter_remove. }
  split; [exact E|]. split; [|split].
  - intros t. rewrite E. split.
    + intros I. apply in_remove in I. exact I.
    + intros [I N]. apply in_in_remove; assumption.
  - unfold allTones. rewrite E. reflexivity.
  - intros N. apply streq_false in N. unfold handleRemoveCustomTone.
    rewrite N. cbn. rewrite filter_remove. reflexivity.
Qed.

Lemma C10_remove_is_exact_witness :
  render (handleRemoveCustomTone (lit "casual")
            (render [SetCustomTones
                       (fun _ => [lit "Witty"; lit "casual"; lit "CASUAL";
                                  lit "casual"]);
                     SetSelectedTone (lit "Casual")] initialState))
         (render [SetCustomTones
                    (fun _ => [lit "Witty"; lit "casual"; lit "CASUAL";
                               lit "casual"]);
                  SetSelectedTone (lit "Casual")] initialState)
  = render [SetCustomTones (fun _ => [lit "Witty"; lit "CASUAL"]);
            SetSelectedTone (lit "Casual")] initialState.
Proof.
  etransitivity.
  - apply (C10_remove_is_exact_and_framed (lit "casual")
             (render [SetCustomTones
                        (fun _ => [lit "Witty"; lit "casual"; lit "CASUAL";
                                   lit "casual"]);
                      SetSelectedTone (lit "Casual")] initialState)).
    discriminate.
  - reflexivity.
Defined.

End ToneClaims.

(** ** Persistence of the custom tones *)

Section Persistence.

Variable toLowerCase : jsstring -> jsstring.

Lemma commit_without_list (updates : list Update) (w : World) :
  existsb replacesCustomTones updates = false ->
  commit updates w
  = {| component := render updates (component w); storage := storage w |}.
Proof. intros H. unfold commit. rewrite H. reflexivity. Qed.

Lemma commit_saves (updates : list Update) (w : World) :
  existsb replacesCustomTones updates = true ->
  (forall m k v, accepts (storage w) m k v = true) ->
  commit updates w
  = {| component := render updates (component w);
       storage :=
         {| entries :=
              <[CUSTOM_TONES_STORAGE_KEY :=
                  JSON.stringify (customTones (render updates (component w)))]>
                (entries (storage w));
            accepts := accepts (storage w) |} |}.
Proof.
  intros H A. unfold commit, saveCustomTones, setItem. rewrite H, A.
  reflexivity.
Qed.

Lemma persisted_after_write (st : AppState) (l : list jsstring)
    (m : gmap jsstring jsstring) a :
  persistedTones
    {| component := st;
       storage :=
         {| entries := <[CUSTOM_TONES_STORAGE_KEY := JSON.stringify l]> m;
            accepts := a |} |}
  = Some l.
Proof.
  unfold persistedTones, getItem. cbn [storage entries].
  rewrite lookup_insert_eq. apply parse_stringify.
Qed.

(** One operation keeps the store in step with the list, and the list in
    step with the replay. *)
Lemma perform_step (op : ToneOperation) (w : World) :
  (forall m k v, accepts (storage w) m k v = true) ->
  persistedTones w = Some (customTones (component w)) ->
  accepts (storage (perform toLowerCase w op)) = accepts (storage w)
  /\ persistedTones (perform toLowerCase w op)
     = Some (customTones (component (perform toLowerCase w op)))
  /\ customTones (component (perform toLowerCase w op))
     = replay toLowerCase (customTones (component w)) op.
Proof.
  intros A P. destruct op as [typed | tone]; cbn [perform replay].
  - rewrite (commit_without_list (onCustomToneInputChange typed (component w)))
      by (unfold onCustomToneInputChange;
          destruct (isSet (formError (component w))); reflexivity).
    set (st1 := render (onCustomToneInputChange typed (component w))
                       (component w)).
    assert (I : customToneInput st1 = typed).
    { unfold st1, onCustomToneInputChange.
      destruct (isSet (formError (component w))); reflexivity. }
    assert (C : customTones st1 = customTones (component w)).
    { unfold st1, onCustomToneInputChange.
      destruct (isSet (formError (component w))); reflexivity. }
    unfold handleAddCustomTone, allTones. cbn [component]. rewrite I, C.
    destruct (trim typed) as [|c r] eqn:T; cbn [truthy negb].
    + rewrite commit_without_list by reflexivity. cbn [component storage].
      split; [reflexivity|]. split; [|exact C].
      unfold persistedTones in *. cbn [storage].
      rewrite P, <- C. reflexivity.
    + destruct (existsb _ (predefinedTones ++ customTones (component w))).
      * rewrite commit_without_list by reflexivity. cbn [component storage].
        split; [reflexivity|]. split; [|exact C].
        unfold persistedTones in *. cbn [storage].
        rewrite P, <- C. reflexivity.
      * rewrite commit_saves by (try reflexivity; exact A).
        cbn [component storage accepts]. split; [reflexivity|]. split.
        -- apply persisted_after_write.
        -- rewrite <- C. reflexivity.
  - rewrite commit_saves by (try reflexivity; exact A).
    cbn [component storage accepts]. split; [reflexivity|]. split.
    + apply persisted_after_write.
    + unfold handleRemoveCustomTone.
      destruct (streq (selectedTone (component w)) tone); reflexivity.
Qed.

Lemma performAll_steps (ops : list ToneOperation) : forall w : World,
  (forall m k v, accepts (storage w) m k v = true) ->
  persistedTones w = Some (customTones (component w)) ->
  persistedTones (performAll toLowerCase ops w)
  = Some (customTones (component (performAll toLowerCase ops w)))
  /\ customTones (component (performAll toLowerCase ops w))
     = replayAll toLowerCase ops (customTones (component w)).
Proof.
  induction ops as [|op ops IH]; intros w A P.
  - split; [exact P | reflexivity].
  - cbn [performAll replayAll fold_left].
    destruct (perform_step op w A P) as (A' & P' & R).
    destruct (IH (perform toLowerCase w op)) as (P'' & R'').
    + intros m k v. rewrite A'. apply A.
    + exact P'.
    + split; [exact P''|]. unfold performAll, replayAll in R''.
      rewrite R''. rewrite R. reflexivity.
Qed.

End Persistence.

Section PersistenceClaims.

(** C9 as stated fails when the browser refuses a write: the list in
    memory grows, the stored one does not, and the failure is reported in
    the form-error cell. *)
Lemma C9_refused_write_leaves_the_store_behind :
  persistedTones (mountedWorld false)
  = Some (customTones (component (mountedWorld false)))
  /\ replayAll asciiToLowerCase [AddTone (lit "Formal")]
       (customTones (component (mountedWorld false)))
     = [lit "Formal"]
  /\ customTones
       (component
          (performAll asciiToLowerCase [AddTone (lit "Formal")]
             (mountedWorld false)))
     = [lit "Formal"]
  /\ persistedTones
       (performAll asciiToLowerCase [AddTone (lit "Formal")]
          (mountedWorld false))
     = Some []
  /\ formError
       (component
          (performAll asciiToLowerCase [AddTone (lit "Formal")]
             (mountedWorld false)))
     = Some (lit "Could not save custom tones.").
Proof. repeat split; vm_compute; reflexivity. Qed.

(** C9 (amended).  As long as the browser takes every write, after any
    sequence of add and remove operations the list read back from the store
    is the list held in memory, which is the list obtained by replaying the
    operations on a plain list; and the JSON text written for a list of
    strings is read back as that list. *)
Theorem C9_store_follows_the_operations
    (toLowerCase : jsstring -> jsstring) (ops : list ToneOperation)
    (w : World) :
  (forall m k v, accepts (storage w) m k v = true) ->
  persistedTones w = Some (customTones (component w)) ->
  persistedTones (performAll toLowerCase ops w)
  = Some (replayAll toLowerCase ops (customTones (component w)))
  /\ customTones (component (performAll toLowerCase ops w))
     = replayAll toLowerCase ops (customTones (component w))
  /\ (forall l : list jsstring, JSON.parse (JSON.stringify l) = Some l).
Proof.
  intros A P.
  destruct (performAll_steps toLowerCase ops w A P) as (P' & R).
  rewrite <- R. split; [exact P'|]. split; [reflexivity|].
  exact parse_stringify.
Qed.

Lemma C9_store_follows_witness :
  persistedTones
    (performAll asciiToLowerCase
       [AddTone (lit " Formal "); AddTone (lit "formal"); AddTone (lit "Witty");
        RemoveTone (lit "Formal"); AddTone (lit "cool")]
       (mountedWorld true))
  = Some
      (replayAll asciiToLowerCase
         [AddTone (lit " Formal "); AddTone (lit "formal");
          AddTone (lit "Witty"); RemoveTone (lit "Formal");
          AddTone (lit "cool")]
         (customTones (component (mountedWorld true))))
  /\ replayAll asciiToLowerCase
       [AddTone (lit " Formal "); AddTone (lit "formal");
        AddTone (lit "Witty"); RemoveTone (lit "Formal");
        AddTone (lit "cool")]
       (customTones (component (mountedWorld true)))
     = [lit "Witty"].
Proof.
  split.
  - refine (proj1 (C9_store_follows_the_operations asciiToLowerCase
                     [AddTone (lit " Formal "); AddTone (lit "formal");
                      AddTone (lit "Witty"); RemoveTone (lit "Formal");
                      AddTone (lit "cool")]
                     (mountedWorld true) (fun _ _ _ => eq_refl) _)).
    vm_compute. reflexivity.
  - vm_compute. reflexivity.
Defined.

End PersistenceClaims.

(** * Further properties *)

(** ** The prompt services, beyond the stated claims *)

Section ServiceProperties.

Import GeminiService.

(** X1.  When the API answers with a text, each operation built on
    [callGemini] returns that text with a run of whitespace taken off each
    end and nothing else changed: the answer is whitespace, then the result,
    then whitespace, and the result neither starts nor ends with
    whitespace. *)
Theorem X1_answer_returned_without_outer_whitespace
    (remote : Remote) (text language tone response : jsstring) :
  (answer remote []
     (request (refinePrompt text language tone) refineSystemInstruction)
   = Response (Some response) ->
   exists before after,
     response
     = before ++ fst (run (refineText text language tone) remote) ++ after
     /\ forallb isWhiteSpace before = true
     /\ forallb isWhiteSpace after = true
     /\ (forall c rest,
           fst (run (refineText text language tone) remote) = c :: rest ->
           isWhiteSpace c = false)
     /\ (forall front c,
           fst (run (refineText text language tone) remote) = front ++ [c] ->
           isWhiteSpace c = false))
  /\ (answer remote []
        (request (convertPrompt text tone) convertSystemInstruction)
      = Response (Some response) ->
      exists before after,
        response
        = before ++ fst (run (convertBanglishToEnglish text tone) remote)
                 ++ after
        /\ forallb isWhiteSpace before = true
        /\ forallb isWhiteSpace after = true
        /\ (forall c rest,
              fst (run (convertBanglishToEnglish text tone) remote)
              = c :: rest ->
              isWhiteSpace c = false)
        /\ (forall front c,
              fst (run (convertBanglishToEnglish text tone) remote)
              = front ++ [c] ->
              isWhiteSpace c = false)).
Proof.
  split; intros H.
  - rewrite refineText_run, H. cbn [fst]. apply trim_spec.
  - rewrite convertBanglishToEnglish_run, H. cbn [fst]. apply trim_spec.
Qed.

Lemma X1_answer_returned_witness :
  exists before after,
    [10; 32] ++ lit "I am fine." ++ [32; 10]
    = before
      ++ fst (run (convertBanglishToEnglish (lit "ami bhalo achi") (lit "Cool"))
                  (answering
                     (Response (Some ([10; 32] ++ lit "I am fine." ++ [32; 10])))))
      ++ after
    /\ forallb isWhiteSpace before = true
    /\ forallb isWhiteSpace after = true
    /\ (forall c rest,
          fst (run (convertBanglishToEnglish (lit "ami bhalo achi") (lit "Cool"))
                   (answering
                      (Response
                         (Some ([10; 32] ++ lit "I am fine." ++ [32; 10])))))
          = c :: rest ->
          isWhiteSpace c = false)
    /\ (forall front c,
          fst (run (convertBanglishToEnglish (lit "ami bhalo achi") (lit "Cool"))
                   (answering
                      (Response
                         (Some ([10; 32] ++ lit "I am fine." ++ [32; 10])))))
          = front ++ [c] ->
          isWhiteSpace c = false).
Proof.
  refine (proj2 (X1_answer_returned_without_outer_whitespace
                   (answering
                      (Response (Some ([10; 32] ++ lit "I am fine." ++ [32; 10]))))
                   (lit "ami bhalo achi") (lit "English") (lit "Cool")
                   ([10; 32] ++ lit "I am fine." ++ [32; 10])) _).
  reflexivity.
Defined.

(** X2.  The two copies of [refineText] agree on a text with visible
    characters: given the language's string value, the refactored one sends
    the very request the first one sends, and when the API answers with a
    text both return the same string. *)
Theorem X2_two_refineText_agree
    (remote : Remote) (text tone : jsstring)
    (lang : SrcGeminiService.Language) :
  truthy (trim text) = true ->
  snd (run (SrcGeminiService.refineText text lang tone) remote)
  = snd (run (refineText text (SrcGeminiService.LanguageValue lang) tone)
             remote)
  /\ (forall response,
        answer remote []
          (request
             (refinePrompt text (SrcGeminiService.LanguageValue lang) tone)
             refineSystemInstruction)
        = Response (Some response) ->
        fst (run (SrcGeminiService.refineText text lang tone) remote)
        = fst (run (refineText text (SrcGeminiService.LanguageValue lang) tone)
                   remote)).
Proof.
  intros T. rewrite (src_refineText_run _ _ _ _ T), refineText_run.
  split; [reflexivity|].
  intros response H.
  change (SrcGeminiService.request
            (SrcGeminiService.promptText
               text (SrcGeminiService.LanguageValue lang) tone)
            SrcGeminiService.systemInstructionText)
    with (request
            (refinePrompt text (SrcGeminiService.LanguageValue lang) tone)
            refineSystemInstruction).
  rewrite H. reflexivity.
Qed.

Lemma X2_two_refineText_agree_witness :
  snd (run (SrcGeminiService.refineText
              (lit "hello there") SrcGeminiService.BANGLA (lit "Casual"))
           (answering (Response (Some (lit "Hey!")))))
  = snd (run (refineText (lit "hello there")
                (SrcGeminiService.LanguageValue SrcGeminiService.BANGLA)
                (lit "Casual"))
             (answering (Response (Some (lit "Hey!"))))).
Proof.
  refine (proj1 (X2_two_refineText_agree
                   (answering (Response (Some (lit "Hey!"))))
                   (lit "hello there") (lit "Casual")
                   SrcGeminiService.BANGLA _)).
  reflexivity.
Defined.

(** X3.  A response that carries no text is reported as a failure: the
    [TypeError] of [undefined.trim()] is raised inside the [try], so each
    operation returns the marker sentence followed by that error's message,
    and the result begins with [Error:]. *)
Theorem X3_response_without_text_is_an_error
    (remote : Remote) (text language tone : jsstring)
    (lang : SrcGeminiService.Language) :
  (answer remote []
     (request (refinePrompt text language tone) refineSystemInstruction)
   = Response None ->
   fst (run (refineText text language tone) remote)
   = lit "Error: Failed to process text. " ++ undefinedTrimMessage remote
   /\ startsWith (lit "Error:")
        (fst (run (refineText text language tone) remote)) = true)
  /\ (answer remote []
        (request (convertPrompt text tone) convertSystemInstruction)
      = Response None ->
      fst (run (convertBanglishToEnglish text tone) remote)
      = lit "Error: Failed to process text. " ++ undefinedTrimMessage remote
      /\ startsWith (lit "Error:")
           (fst (run (convertBanglishToEnglish text tone) remote)) = true)
  /\ (truthy (trim text) = true ->
      answer remote []
        (SrcGeminiService.request
           (SrcGeminiService.promptText
              text (SrcGeminiService.LanguageValue lang) tone)
           SrcGeminiService.systemInstructionText)
      = Response None ->
      fst (run (SrcGeminiService.refineText text lang tone) remote)
      = lit "Error: Failed to refine text. " ++ undefinedTrimMessage remote
      /\ startsWith (lit "Error:")
           (fst (run (SrcGeminiService.refineText text lang tone) remote))
         = true).
Proof.
  split; [|split].
  - intros H. rewrite refineText_run, H. split; reflexivity.
  - intros H. rewrite convertBanglishToEnglish_run, H. split; reflexivity.
  - intros T H. rewrite (src_refineText_run _ _ _ _ T), H. split; reflexivity.
Qed.

Lemma X3_response_without_text_witness :
  fst (run (convertBanglishToEnglish (lit "ami bhalo achi") (lit "Cool"))
           (answering (Response None)))
  = lit "Error: Failed to process text. "
      ++ undefinedTrimMessage (answering (Response None))
  /\ startsWith (lit "Error:")
       (fst (run (convertBanglishToEnglish (lit "ami bhalo achi") (lit "Cool"))
                 (answering (Response None))))
     = true.
Proof.
  refine (proj1 (proj2 (X3_response_without_text_is_an_error
                          (answering (Response None))
                          (lit "ami bhalo achi") (lit "English") (lit "Cool")
                          SrcGeminiService.ENGLISH)) _).
  reflexivity.
Defined.

(** X4.  Every prompt quotes its inputs verbatim: the refine prompt holds
    the text, the tone and the language, the conversion prompt the text and
    the tone, whatever these strings are. *)
Theorem X4_prompts_quote_their_inputs (text language tone : jsstring) :
  includes text (refinePrompt text language tone) = true
  /\ includes tone (refinePrompt text language tone) = true
  /\ includes language (refinePrompt text language tone) = true
  /\ includes text (convertPrompt text tone) = true
  /\ includes tone (convertPrompt text tone) = true
  /\ includes text (SrcGeminiService.promptText text language tone) = true
  /\ includes tone (SrcGeminiService.promptText text language tone) = true.
Proof.
  destruct (refinePrompt_includes text language tone) as [A B].
  destruct (convertPrompt_includes text tone) as [C D].
  repeat (split; [assumption|]).
  split; [|split; [assumption|split; [assumption|split; assumption]]].
  unfold refinePrompt. apply includes_skip, includes_here.
Qed.

End ServiceProperties.

(** ** The process action, beyond the stated claims *)

Section ProcessProperties.

Import GeminiService.

(** X5.  On an input with visible characters the process action sends
    exactly one request whatever the task: the conversion prompt for the
    conversion task, the refine prompt with the task's language otherwise,
    built from the untrimmed input and the selected tone.  The branch that
    reports a task as not configured is never taken. *)
Theorem X5_process_sends_one_request_for_every_task
    (TaskValue : Task -> jsstring) (st : AppState) (remote : Remote) :
  truthy (trim (inputText st)) = true ->
  snd (run (handleRefine TaskValue st) remote)
  = [match selectedTask st with
     | REFINE_ENGLISH =>
         request (refinePrompt (inputText st) (lit "English") (selectedTone st))
                 refineSystemInstruction
     | REFINE_BANGLISH =>
         request (refinePrompt (inputText st)
                    (lit "Banglish (Bengali in English letters)")
                    (selectedTone st))
                 refineSystemInstruction
     | REFINE_BANGLA =>
         request (refinePrompt (inputText st) (lit "Bengali (Bangla script)")
                    (selectedTone st))
                 refineSystemInstruction
     | BANGLISH_TO_ENGLISH =>
         request (convertPrompt (inputText st) (selectedTone st))
                 convertSystemInstruction
     end].
Proof.
  intros V. destruct (selectedTask st) eqn:T.
  - rewrite (handleRefine_refine TaskValue st (lit "English") remote V)
      by (rewrite T; reflexivity).
    rewrite refineText_run. reflexivity.
  - rewrite (handleRefine_refine TaskValue st
               (lit "Banglish (Bengali in English letters)") remote V)
      by (rewrite T; reflexivity).
    rewrite refineText_run. reflexivity.
  - rewrite (handleRefine_refine TaskValue st
               (lit "Bengali (Bangla script)") remote V)
      by (rewrite T; reflexivity).
    rewrite refineText_run. reflexivity.
  - rewrite (handleRefine_convert TaskValue st remote V T).
    rewrite convertBanglishToEnglish_run. reflexivity.
Qed.

Lemma X5_process_sends_one_request_witness :
  snd (run (handleRefine sampleTaskValue
              (render [SetInputText (lit " ami bhalo achi ");
                       SetSelectedTask BANGLISH_TO_ENGLISH] initialState))
           (answering (Rejects NonError)))
  = [request (convertPrompt (lit " ami bhalo achi ") (lit "Professional"))
             convertSystemInstruction].
Proof.
  refine (X5_process_sends_one_request_for_every_task
            sampleTaskValue
            (render [SetInputText (lit " ami bhalo achi ");
                     SetSelectedTask BANGLISH_TO_ENGLISH] initialState)
            (answering (Rejects NonError)) _).
  reflexivity.
Defined.

(** X6.  After the process action on an input with visible characters the
    loading and copied flags are off and the service's result sits in
    exactly one cell: in the API-error cell, with an empty output, when it
    begins with [Error:], in the output cell, with no API error, otherwise.
    What those four cells held before is gone; the input, the task, the
    tone, the form error and the tone list are untouched. *)
Theorem X6_process_leaves_the_result_in_one_cell
    (TaskValue : Task -> jsstring) (st : AppState) (remote : Remote) :
  truthy (trim (inputText st)) = true ->
  exists result,
    render (fst (run (handleRefine TaskValue st) remote)) st
    = {| inputText := inputText st;
         selectedTask := selectedTask st;
         selectedTone := selectedTone st;
         outputText := if startsWith (lit "Error:") result then [] else result;
         isLoading := false;
         apiError :=
           if startsWith (lit "Error:") result then Some result else None;
         formError := formError st;
         isCopied := false;
         customTones := customTones st;
         customToneInput := customToneInput st |}
    /\ result
       = match selectedTask st with
         | BANGLISH_TO_ENGLISH =>
             fst (run (convertBanglishToEnglish
                         (inputText st) (selectedTone st)) remote)
         | REFINE_ENGLISH =>
             fst (run (refineText (inputText st) (lit "English")
                         (selectedTone st)) remote)
         | REFINE_BANGLISH =>
             fst (run (refineText (inputText st)
                         (lit "Banglish (Bengali in English letters)")
                         (selectedTone st)) remote)
         | REFINE_BANGLA =>
             fst (run (refineText (inputText st)
                         (lit "Bengali (Bangla script)")
                         (selectedTone st)) remote)
         end.
Proof.
  intros V. eexists. split; [|reflexivity].
  destruct (selectedTask st) eqn:T.
  - rewrite (handleRefine_refine TaskValue st (lit "English") remote V)
      by (rewrite T; reflexivity).
    cbn [fst]. unfold showResult.
    destruct (startsWith (lit "Error:") _); rewrite <- T; reflexivity.
  - rewrite (handleRefine_refine TaskValue st
               (lit "Banglish (Bengali in English letters)") remote V)
      by (rewrite T; reflexivity).
    cbn [fst]. unfold showResult.
    destruct (startsWith (lit "Error:") _); rewrite <- T; reflexivity.
  - rewrite (handleRefine_refine TaskValue st
               (lit "Bengali (Bangla script)") remote V)
      by (rewrite T; reflexivity).
    cbn [fst]. unfold showResult.
    destruct (startsWith (lit "Error:") _); rewrite <- T; reflexivity.
  - rewrite (handleRefine_convert TaskValue st remote V T).
    cbn [fst]. unfold showResult.
    destruct (startsWith (lit "Error:") _); rewrite <- T; reflexivity.
Qed.

Lemma X6_process_leaves_the_result_witness :
  exists result,
    render
      (fst (run (handleRefine sampleTaskValue
                   (render [SetInputText (lit "hello there");
                            SetOutputText (lit "stale")] initialState))
                (answering (Response (Some (lit " Hey! "))))))
      (render [SetInputText (lit "hello there");
               SetOutputText (lit "stale")] initialState)
    = render [SetInputText (lit "hello there");
              SetOutputText
                (if startsWith (lit "Error:") result then [] else result);
              SetApiError
                (if startsWith (lit "Error:") result then Some result else None)]
        initialState
    /\ result = lit "Hey!".
Proof.
  destruct (X6_process_leaves_the_result_in_one_cell
              sampleTaskValue
              (render [SetInputText (lit "hello there");
                       SetOutputText (lit "stale")] initialState)
              (answering (Response (Some (lit " Hey! ")))))
    as (result & E & R).
  - reflexivity.
  - exists result. split; [rewrite E; reflexivity | rewrite R; reflexivity].
Defined.

(** X7.  The marker is looked for in whatever the service returns: when the
    API itself answers with a text that, once trimmed, begins with [Error:],
    the process action shows it as an API error and the output stays
    empty. *)
Theorem X7_answer_with_the_marker_is_shown_as_an_error
    (TaskValue : Task -> jsstring) (st : AppState) (remote : Remote)
    (response : jsstring) :
  truthy (trim (inputText st)) = true ->
  (forall log req, answer remote log req = Response (Some response)) ->
  startsWith (lit "Error:") (trim response) = true ->
  apiError (render (fst (run (handleRefine TaskValue st) remote)) st)
  = Some (trim response)
  /\ outputText (render (fst (run (handleRefine TaskValue st) remote)) st)
     = [].
Proof.
  intros V A M.
  destruct (handleRefine_calls_service TaskValue st remote V)
    as (prompt & systemInstruction & -> & P).
  rewrite (callGemini_run _ _ remote P), A. cbn [fst].
  unfold showResult. rewrite M. split; reflexivity.
Qed.

Lemma X7_answer_with_the_marker_witness :
  apiError
    (render
       (fst (run (handleRefine sampleTaskValue
                    (render [SetInputText (lit "say an error")] initialState))
                 (answering (Response (Some (lit " Error: none, really "))))))
       (render [SetInputText (lit "say an error")] initialState))
  = Some (trim (lit " Error: none, really ")).
Proof.
  refine (proj1 (X7_answer_with_the_marker_is_shown_as_an_error
                   sampleTaskValue
                   (render [SetInputText (lit "say an error")] initialState)
                   (answering (Response (Some (lit " Error: none, really "))))
                   (lit " Error: none, really ") _ _ _)).
  - reflexivity.
  - intros log req. reflexivity.
  - reflexivity.
Defined.

(** X8.  When the call rejects with a value that is not an [Error]
    instance, the process action shows the unknown-error sentence in the
    output cell, as if it were generated text, and sets no API error. *)
Theorem X8_unknown_fault_is_shown_as_output
    (TaskValue : Task -> jsstring) (st : AppState) (remote : Remote) :
  truthy (trim (inputText st)) = true ->
  (forall log req, answer remote log req = Rejects NonError) ->
  outputText (render (fst (run (handleRefine TaskValue st) remote)) st)
  = lit "An unknown error occurred while processing text."
  /\ apiError (render (fst (run (handleRefine TaskValue st) remote)) st)
     = None.
Proof.
  intros V A.
  destruct (handleRefine_calls_service TaskValue st remote V)
    as (prompt & systemInstruction & -> & P).
  rewrite (callGemini_run _ _ remote P), A. split; reflexivity.
Qed.

Lemma X8_unknown_fault_witness :
  outputText
    (render
       (fst (run (handleRefine sampleTaskValue
                    (render [SetInputText (lit "hello there")] initialState))
                 (answering (Rejects NonError))))
       (render [SetInputText (lit "hello there")] initialState))
  = lit "An unknown error occurred while processing text.".
Proof.
  refine (proj1 (X8_unknown_fault_is_shown_as_output
                   sampleTaskValue
                   (render [SetInputText (lit "hello there")] initialState)
                   (answering (Rejects NonError)) _ _)).
  - reflexivity.
  - intros log req. reflexivity.
Defined.

End ProcessProperties.

(** ** The tone actions, beyond the stated claims *)

Section ToneFacts.

Lemma trimStart_fixed (s : jsstring) :
  (forall c rest, s = c :: rest -> isWhiteSpace c = false) ->
  trimStart s = s.
Proof.
  destruct s as [|c s]; intros H; [reflexivity|].
  simpl. rewrite (H c s eq_refl). reflexivity.
Qed.

(** Trimming a trimmed string changes nothing. *)
Lemma trim_idempotent (s : jsstring) : trim (trim s) = trim s.
Proof.
  destruct (trim_spec s) as (_ & _ & _ & _ & _ & Hfirst & Hlast).
  unfold trim at 1. unfold trimEnd.
  rewrite (trimStart_fixed (trim s) Hfirst).
  rewrite trimStart_fixed; [apply rev_involutive|].
  intros c rest E. apply (Hlast (rev rest) c).
  rewrite <- (rev_involutive (trim s)), E. reflexivity.
Qed.

Lemma filter_absent (tone : jsstring) (l : list jsstring) :
  ~ In tone l -> List.filter (fun t => negb (streq t tone)) l = l.
Proof.
  intros H. rewrite filter_remove. apply notin_remove. exact H.
Qed.

Lemma filter_twice (tone : jsstring) (l : list jsstring) :
  List.filter (fun t => negb (streq t tone))
    (List.filter (fun t => negb (streq t tone)) l)
  = List.filter (fun t => negb (streq t tone)) l.
Proof. rewrite !filter_remove. apply remove_remove_eq. Qed.

Lemma filter_swap (a b : jsstring) (l : list jsstring) :
  List.filter (fun t => negb (streq t a))
    (List.filter (fun t => negb (streq t b)) l)
  = List.filter (fun t => negb (streq t b))
      (List.filter (fun t => negb (streq t a)) l).
Proof. rewrite !filter_remove. apply remove_remove_comm. Qed.

Lemma existsb_streq (tone : jsstring) (l : list jsstring) :
  existsb (streq tone) l = true <-> In tone l.
Proof.
  rewrite existsb_exists. split.
  - intros (t & I & E). apply streq_spec in E. subst t. exact I.
  - intros I. exists tone. split; [exact I | apply streq_refl].
Qed.

End ToneFacts.

Section ToneProperties.

(** X9.  Adding a tone and then removing it gives back the list as it was:
    when the add action accepts the trimmed input, the remove action on that
    tone restores the custom tones. *)
Theorem X9_remove_undoes_add
    (toLowerCase : jsstring -> jsstring) (st : AppState) :
  trim (customToneInput st) <> [] ->
  (forall t, In t (predefinedTones ++ customTones st) ->
             toLowerCase t <> toLowerCase (trim (customToneInput st))) ->
  customTones
    (render (handleRemoveCustomTone (trim (customToneInput st))
               (render (handleAddCustomTone toLowerCase st) st))
            (render (handleAddCustomTone toLowerCase st) st))
  = customTones st.
Proof.
  intros N D.
  assert (A : ~ In (trim (customToneInput st)) (customTones st)).
  { intros I. apply (D (trim (customToneInput st))); [|reflexivity].
    apply in_or_app. right. exact I. }
  rewrite (handleAddCustomTone_new toLowerCase st N D).
  unfold handleRemoveCustomTone.
  match goal with
  | |- context [if ?b then _ else _] => destruct b
  end; cbn; rewrite filter_app, (filter_absent _ _ A); cbn;
    rewrite streq_refl; cbn; apply app_nil_r.
Qed.

Lemma X9_remove_undoes_add_witness :
  customTones
    (render
       (handleRemoveCustomTone
          (trim (customToneInput
                   (render [SetCustomTones (fun _ => [lit "Witty"]);
                            SetCustomToneInput (lit " Formal ")] initialState)))
          (render (handleAddCustomTone asciiToLowerCase
                     (render [SetCustomTones (fun _ => [lit "Witty"]);
                              SetCustomToneInput (lit " Formal ")]
                        initialState))
                  (render [SetCustomTones (fun _ => [lit "Witty"]);
                           SetCustomToneInput (lit " Formal ")] initialState)))
       (render (handleAddCustomTone asciiToLowerCase
                  (render [SetCustomTones (fun _ => [lit "Witty"]);
                           SetCustomToneInput (lit " Formal ")] initialState))
               (render [SetCustomTones (fun _ => [lit "Witty"]);
                        SetCustomToneInput (lit " Formal ")] initialState)))
  = customTones
      (render [SetCustomTones (fun _ => [lit "Witty"]);
               SetCustomToneInput (lit " Formal ")] initialState).
Proof.
  refine (X9_remove_undoes_add asciiToLowerCase
            (render [SetCustomTones (fun _ => [lit "Witty"]);
                     SetCustomToneInput (lit " Formal ")] initialState) _ _).
  - discriminate.
  - intros t I. vm_compute in I.
    repeat (destruct I as [<- | I]; [discriminate|]). destruct I.
Defined.

(** X10.  Removing is idempotent and the order of two removals does not
    matter: removing a tone twice leaves the state the first removal left,
    and removing two tones in either order gives the same state, selection
    included. *)
Theorem X10_removals_compose (a b : jsstring) (st : AppState) :
  render (handleRemoveCustomTone a (render (handleRemoveCustomTone a st) st))
         (render (handleRemoveCustomTone a st) st)
  = render (handleRemoveCustomTone a st) st
  /\ render (handleRemoveCustomTone a (render (handleRemoveCustomTone b st) st))
            (render (handleRemoveCustomTone b st) st)
     = render (handleRemoveCustomTone b (render (handleRemoveCustomTone a st) st))
              (render (handleRemoveCustomTone a st) st).
Proof.
  destruct st as [i task s o ld ae fe cp tones ti].
  unfold handleRemoveCustomTone. cbn [selectedTone].
  generalize (ToneValue PROFESSIONAL). intros p. split.
  - destruct (streq s a) eqn:Sa; cbn.
    + destruct (streq p a); cbn; rewrite filter_twice; reflexivity.
    + rewrite Sa. cbn. rewrite filter_twice. reflexivity.
  - destruct (streq s a) eqn:Sa, (streq s b) eqn:Sb; cbn;
      rewrite ?Sa, ?Sb; cbn;
      destruct (streq p a), (streq p b); cbn;
      rewrite (filter_swap a b); reflexivity.
Qed.

(** X11.  The add action touches nothing but the tone list, the tone input
    and the form error: a rejected add changes only the form error and
    keeps what was typed; an accepted add appends the trimmed tone, clears
    the input and the form error, and keeps the selection, the text, the
    output and the flags. *)
Theorem X11_add_is_framed
    (toLowerCase : jsstring -> jsstring) (st : AppState) :
  render (handleAddCustomTone toLowerCase st) st
  = {| inputText := inputText st;
       selectedTask := selectedTask st;
       selectedTone := selectedTone st;
       outputText := outputText st;
       isLoading := isLoading st;
       apiError := apiError st;
       formError := formError (render (handleAddCustomTone toLowerCase st) st);
       isCopied := isCopied st;
       customTones := customTones st;
       customToneInput := customToneInput st |}
  /\ formError (render (handleAddCustomTone toLowerCase st) st) <> None
  \/ render (handleAddCustomTone toLowerCase st) st
     = {| inputText := inputText st;
          selectedTask := selectedTask st;
          selectedTone := selectedTone st;
          outputText := outputText st;
          isLoading := isLoading st;
          apiError := apiError st;
          formError := None;
          isCopied := isCopied st;
          customTones := customTones st ++ [trim (customToneInput st)];
          customToneInput := [] |}.
Proof.
  unfold handleAddCustomTone.
  destruct (trim (customToneInput st)) as [|c r]; cbn [truthy negb].
  - left. split; [reflexivity | discriminate].
  - destruct (existsb _ (allTones st)).
    + left. split; [reflexivity | discriminate].
    + right. reflexivity.
Qed.

(** Typing in the custom-tone input replaces the input cell and hides any
    form-error message, a failed save included; every other cell keeps its
    value. *)
Lemma typing_hides_the_form_error (value : jsstring) (st : AppState) :
  isSet (formError (render (onCustomToneInputChange value st) st)) = false
  /\ render (onCustomToneInputChange value st) st
     = {| inputText := inputText st;
          selectedTask := selectedTask st;
          selectedTone := selectedTone st;
          outputText := outputText st;
          isLoading := isLoading st;
          apiError := apiError st;
          formError := formError (render (onCustomToneInputChange value st) st);
          isCopied := isCopied st;
          customTones := customTones st;
          customToneInput := value |}.
Proof.
  unfold onCustomToneInputChange.
  destruct (isSet (formError st)) eqn:F; split; try reflexivity.
  exact F.
Qed.

End ToneProperties.

(** ** What every sequence of user events keeps *)

Section EventFacts.

Variable toLowerCase : jsstring -> jsstring.

(** A commit applies the setter calls; the save effect can only add its
    report to the form-error cell. *)
Lemma commit_component (updates : list Update) (w : World) :
  component (commit updates w) = render updates (component w)
  \/ component (commit updates w)
     = render [SetFormError (Some (lit "Could not save custom tones."))]
              (render updates (component w)).
Proof.
  unfold commit, saveCustomTones.
  destruct (existsb replacesCustomTones updates); [|left; reflexivity].
  destruct (setItem _ _ (storage w)); [left | right]; reflexivity.
Qed.

Lemma commit_cells (updates : list Update) (w : World) :
  customTones (component (commit updates w))
  = customTones (render updates (component w))
  /\ selectedTone (component (commit updates w))
     = selectedTone (render updates (component w)).
Proof.
  destruct (commit_component updates w) as [-> | ->]; split; reflexivity.
Qed.

(** Setter calls that do not replace the list leave it as it is. *)
Lemma render_keeps_list (updates : list Update) : forall st : AppState,
  existsb replacesCustomTones updates = false ->
  customTones (render updates st) = customTones st.
Proof.
  induction updates as [|u updates IH]; intros st H; [reflexivity|].
  cbn [existsb] in H. apply orb_false_iff in H. destruct H as [U H].
  unfold render in *. cbn [fold_left]. rewrite (IH _ H).
  destruct u; try reflexivity. discriminate.
Qed.

(** The list and the selection after the add action. *)
Lemma add_cells (st : AppState) :
  selectedTone (render (handleAddCustomTone toLowerCase st) st)
  = selectedTone st
  /\ (customTones (render (handleAddCustomTone toLowerCase st) st)
      = customTones st
      \/ trim (customToneInput st) <> []
         /\ existsb (fun t => streq (toLowerCase t)
                                (toLowerCase (trim (customToneInput st))))
                    (allTones st) = false
         /\ customTones (render (handleAddCustomTone toLowerCase st) st)
            = customTones st ++ [trim (customToneInput st)]).
Proof.
  unfold handleAddCustomTone.
  destruct (trim (customToneInput st)) as [|c r] eqn:T; cbn [truthy negb].
  - split; [reflexivity | left; reflexivity].
  - destruct (existsb _ (allTones st)) eqn:D.
    + split; [reflexivity | left; reflexivity].
    + split; [reflexivity|]. right.
      split; [discriminate|]. split; reflexivity.
Qed.

Lemma remove_cells (tone : jsstring) (st : AppState) :
  customTones (render (handleRemoveCustomTone tone st) st)
  = List.filter (fun t => negb (streq t tone)) (customTones st)
  /\ selectedTone (render (handleRemoveCustomTone tone st) st)
     = if streq (selectedTone st) tone
       then ToneValue PROFESSIONAL
       else selectedTone st.
Proof.
  unfold handleRemoveCustomTone.
  destruct (streq (selectedTone st) tone); split; reflexivity.
Qed.

Lemma typing_cells (value : jsstring) (st : AppState) :
  customTones (render (onCustomToneInputChange value st) st) = customTones st
  /\ selectedTone (render (onCustomToneInputChange value st) st)
     = selectedTone st.
Proof.
  unfold onCustomToneInputChange.
  destruct (isSet (formError st)); split; reflexivity.
Qed.

(** A property of the list and the selection that each offered event keeps
    is kept by every sequence of events. *)
Lemma handleEvents_keep (P : list jsstring -> jsstring -> Prop) :
  (forall st e,
      offered st e = true ->
      P (customTones st) (selectedTone st) ->
      P (customTones (render (eventUpdates toLowerCase e st) st))
        (selectedTone (render (eventUpdates toLowerCase e st) st))) ->
  forall events w,
    P (customTones (component w)) (selectedTone (component w)) ->
    P (customTones (component (handleEvents toLowerCase events w)))
      (selectedTone (component (handleEvents toLowerCase events w))).
Proof.
  intros Step events. induction events as [|e events IH]; intros w H.
  - exact H.
  - cbn [handleEvents fold_left]. apply IH. unfold handleEvent.
    destruct (offered (component w) e) eqn:O; [|exact H].
    destruct (commit_cells (eventUpdates toLowerCase e (component w)) w)
      as [-> ->].
    apply Step; assumption.
Qed.

Lemma NoDup_snoc {A} (l : list A) (x : A) :
  NoDup l -> ~ In x l -> NoDup (l ++ [x]).
Proof.
  induction l as [|y l IH]; intros N I; cbn.
  - constructor; [intros [] | constructor].
  - inversion N as [|? ? Ny Nl]; subst. constructor.
    + rewrite in_app_iff. intros [H | [H | []]]; [exact (Ny H)|].
      apply I. left. symmetry. exact H.
    + apply IH; [exact Nl|]. intros H. apply I. right. exact H.
Qed.

Lemma NoDup_map_filter_tail {A B} (f : A -> B) (p : A -> bool)
    (a b : list A) :
  NoDup (List.map f (a ++ b)) -> NoDup (List.map f (a ++ List.filter p b)).
Proof.
  assert (Sub : forall y, In y (List.map f (a ++ List.filter p b)) ->
                          In y (List.map f (a ++ b))).
  { intros y. rewrite !List.in_map_iff. intros (x & E & I).
    exists x. split; [exact E|]. rewrite in_app_iff in *.
    destruct I as [I | I]; [left; exact I | right].
    apply List.filter_In in I. apply I. }
  revert Sub. induction a as [|x a IH]; cbn; intros Sub N.
  - clear Sub. induction b as [|x b IHb]; cbn; [constructor|].
    inversion N as [|? ? Nx Nb]; subst.
    destruct (p x); cbn; [|apply IHb; exact Nb].
    constructor; [|apply IHb; exact Nb].
    rewrite List.in_map_iff. intros (y & E & I).
    apply List.filter_In in I. apply Nx. rewrite List.in_map_iff.
    exists y. split; [exact E | apply I].
  - inversion N as [|? ? Nx Na]; subst. constructor.
    + intros I. apply Nx.
      rewrite List.in_map_iff in I. destruct I as (y & E & I).
      rewrite List.in_map_iff. exists y. split; [exact E|].
      rewrite in_app_iff in *. destruct I as [I | I]; [left; exact I | right].
      apply List.filter_In in I. apply I.
    + apply IH; [|exact Na].
      intros y. rewrite !List.in_map_iff. intros (z & E & I).
      exists z. split; [exact E|]. rewrite in_app_iff in *.
      destruct I as [I | I]; [left; exact I | right].
      apply List.filter_In in I. apply I.
Qed.

End EventFacts.

Section EventProperties.

(** X12.  While the tones on display are pairwise different, the selected
    tone is one of them: from a state where the displayed tones are
    pairwise different and the selection is among them, every sequence of
    typing, choosing, adding and removing leads to a state where both still
    hold. *)
Theorem X12_selection_stays_on_display
    (toLowerCase : jsstring -> jsstring) (events : list Event) (w : World) :
  NoDup (allTones (component w)) ->
  In (selectedTone (component w)) (allTones (component w)) ->
  NoDup (allTones (component (handleEvents toLowerCase events w)))
  /\ In (selectedTone (component (handleEvents toLowerCase events w)))
        (allTones (component (handleEvents toLowerCase events w))).
Proof.
  unfold allTones. intros D S.
  apply (handleEvents_keep toLowerCase
           (fun tones tone =>
              NoDup (predefinedTones ++ tones)
              /\ In tone (predefinedTones ++ tones)));
    [|split; assumption].
  clear. intros st e O [D H]. destruct e; cbn [eventUpdates].
  - split; assumption.
  - split; assumption.
  - split; [exact D|].
    cbn [offered] in O. apply existsb_streq in O. exact O.
  - destruct (typing_cells value st) as [-> ->]. split; assumption.
  - destruct (add_cells toLowerCase st) as [-> [-> | (_ & F & ->)]];
      [split; assumption|].
    rewrite app_assoc. split.
    + apply NoDup_snoc; [exact D|]. intros I.
      assert (T : existsb
                    (fun t => streq (toLowerCase t)
                                (toLowerCase (trim (customToneInput st))))
                    (allTones st) = true).
      { apply existsb_exists. exists (trim (customToneInput st)).
        split; [exact I | apply streq_refl]. }
      congruence.
    + apply in_or_app. left. exact H.
  - destruct (remove_cells tone st) as [-> ->]. split.
    + rewrite <- (List.map_id (predefinedTones ++ _)).
      apply NoDup_map_filter_tail. rewrite List.map_id. exact D.
    + destruct (streq (selectedTone st) tone) eqn:S.
      * apply in_or_app. left. left. reflexivity.
      * apply streq_false in S. apply in_app_or in H.
        apply in_or_app. destruct H as [H | H]; [left; exact H | right].
        apply List.filter_In. split; [exact H|].
        apply negb_true_iff, streq_false. exact S.
Qed.

Lemma X12_selection_stays_on_display_witness :
  NoDup
    (allTones
       (component
          (handleEvents asciiToLowerCase
             [TypeTone (lit " Formal "); PressAdd; ChooseTone (lit "Formal");
              PressRemove (lit "Formal")]
             (mountedWorld true))))
  /\ In (selectedTone
           (component
              (handleEvents asciiToLowerCase
                 [TypeTone (lit " Formal "); PressAdd;
                  ChooseTone (lit "Formal"); PressRemove (lit "Formal")]
                 (mountedWorld true))))
        (allTones
           (component
              (handleEvents asciiToLowerCase
                 [TypeTone (lit " Formal "); PressAdd;
                  ChooseTone (lit "Formal"); PressRemove (lit "Formal")]
                 (mountedWorld true)))).
Proof.
  refine (X12_selection_stays_on_display asciiToLowerCase
            [TypeTone (lit " Formal "); PressAdd; ChooseTone (lit "Formal");
             PressRemove (lit "Formal")]
            (mountedWorld true) _ _).
  - vm_compute. repeat constructor; cbn; intuition discriminate.
  - left. reflexivity.
Defined.

(** X13.  Every custom tone is a non-empty, trimmed string that is none of
    the predefined tones, so each has its remove button: from a list of
    such tones, no sequence of events produces one that is not. *)
Theorem X13_custom_tones_are_trimmed_and_removable
    (toLowerCase : jsstring -> jsstring) (events : list Event) (w : World) :
  Forall (fun t => t <> [] /\ trim t = t /\ isCustom t = true)
         (customTones (component w)) ->
  Forall (fun t => t <> [] /\ trim t = t /\ isCustom t = true)
         (customTones (component (handleEvents toLowerCase events w))).
Proof.
  apply (handleEvents_keep toLowerCase
           (fun tones _ =>
              Forall (fun t => t <> [] /\ trim t = t /\ isCustom t = true)
                     tones)).
  intros st e O H. destruct e; cbn [eventUpdates].
  - exact H.
  - exact H.
  - exact H.
  - destruct (typing_cells value st) as [-> _]. exact H.
  - destruct (add_cells toLowerCase st) as [_ [-> | (N & D & ->)]];
      [exact H|].
    apply List.Forall_app. split; [exact H|].
    constructor; [|constructor].
    split; [exact N|]. split; [apply trim_idempotent|].
    unfold isCustom. apply negb_true_iff.
    destruct (existsb (streq (trim (customToneInput st))) predefinedTones)
      eqn:E; [|reflexivity].
    apply existsb_streq in E.
    assert (D' : existsb
                   (fun t => streq (toLowerCase t)
                               (toLowerCase (trim (customToneInput st))))
                   (allTones st) = true).
    { apply existsb_exists. exists (trim (customToneInput st)).
      split; [apply in_or_app; left; exact E | apply streq_refl]. }
    congruence.
  - destruct (remove_cells tone st) as [-> _].
    apply List.Forall_forall. intros t I. apply List.filter_In in I.
    destruct I as [I _].
    exact (proj1 (List.Forall_forall _ _) H t I).
Qed.

Lemma X13_custom_tones_witness :
  Forall (fun t => t <> [] /\ trim t = t /\ isCustom t = true)
         (customTones
            (component
               (handleEvents asciiToLowerCase
                  [TypeTone (lit " Formal "); PressAdd]
                  (mountedWorld true)))).
Proof.
  refine (X13_custom_tones_are_trimmed_and_removable asciiToLowerCase
            [TypeTone (lit " Formal "); PressAdd] (mountedWorld true) _).
  constructor.
Defined.

(** X14.  The tones on display stay pairwise different up to case: when no
    two of them have the same lower-case form, no sequence of events makes
    two of them have the same. *)
Theorem X14_tones_stay_distinct_up_to_case
    (toLowerCase : jsstring -> jsstring) (events : list Event) (w : World) :
  NoDup (List.map toLowerCase (allTones (component w))) ->
  NoDup (List.map toLowerCase
           (allTones (component (handleEvents toLowerCase events w)))).
Proof.
  unfold allTones.
  apply (handleEvents_keep toLowerCase
           (fun tones _ =>
              NoDup (List.map toLowerCase (predefinedTones ++ tones)))).
  intros st e O H. destruct e; cbn [eventUpdates].
  - exact H.
  - exact H.
  - exact H.
  - destruct (typing_cells value st) as [-> _]. exact H.
  - destruct (add_cells toLowerCase st) as [_ [-> | (_ & D & ->)]];
      [exact H|].
    rewrite app_assoc, List.map_app. cbn [List.map].
    apply NoDup_snoc; [exact H|].
    rewrite List.in_map_iff. intros (t & E & I).
    assert (D' : existsb
                   (fun t => streq (toLowerCase t)
                               (toLowerCase (trim (customToneInput st))))
                   (allTones st) = true).
    { apply existsb_exists. exists t.
      split; [exact I | apply streq_spec; exact E]. }
    congruence.
  - destruct (remove_cells tone st) as [-> _].
    apply NoDup_map_filter_tail. exact H.
Qed.

Lemma X14_tones_stay_distinct_witness :
  NoDup (List.map asciiToLowerCase
           (allTones
              (component
                 (handleEvents asciiToLowerCase
                    [TypeTone (lit "casual"); PressAdd;
                     TypeTone (lit "Formal"); PressAdd]
                    (mountedWorld true))))).
Proof.
  refine (X14_tones_stay_distinct_up_to_case asciiToLowerCase
            [TypeTone (lit "casual"); PressAdd;
             TypeTone (lit "Formal"); PressAdd]
            (mountedWorld true) _).
  vm_compute. repeat constructor;
    cbn; intuition discriminate.
Defined.

End EventProperties.

(** ** The store across events and restarts *)

Section StoreFacts.

Variable toLowerCase : jsstring -> jsstring.

(** A commit leaves the store alone or rewrites the one key with the JSON
    text of a list. *)
Lemma commit_storage (updates : list Update) (w : World) :
  storage (commit updates w) = storage w
  \/ exists l,
       storage (commit updates w)
       = {| entries :=
              <[CUSTOM_TONES_STORAGE_KEY := JSON.stringify l]>
                (entries (storage w));
            accepts := accepts (storage w) |}.
Proof.
  unfold commit, saveCustomTones, setItem.
  destruct (existsb replacesCustomTones updates); [|left; reflexivity].
  destruct (accepts (storage w) _ _ _); [right | left; reflexivity].
  eexists. reflexivity.
Qed.

Lemma handleEvent_storage (w : World) (e : Event) :
  storage (handleEvent toLowerCase w e) = storage w
  \/ exists l,
       storage (handleEvent toLowerCase w e)
       = {| entries :=
              <[CUSTOM_TONES_STORAGE_KEY := JSON.stringify l]>
                (entries (storage w));
            accepts := accepts (storage w) |}.
Proof.
  unfold handleEvent. destruct (offered (component w) e);
    [apply commit_storage | left; reflexivity].
Qed.

(** With a willing browser a commit keeps the store in step with the
    list. *)
Lemma commit_sync (updates : list Update) (w : World) :
  (forall m k v, accepts (storage w) m k v = true) ->
  persistedTones w = Some (customTones (component w)) ->
  accepts (storage (commit updates w)) = accepts (storage w)
  /\ persistedTones (commit updates w)
     = Some (customTones (component (commit updates w))).
Proof.
  intros A P. destruct (existsb replacesCustomTones updates) eqn:R.
  - rewrite (commit_saves updates w R A). split; [reflexivity|].
    apply persisted_after_write.
  - rewrite (commit_without_list updates w R). split; [reflexivity|].
    cbn [component]. rewrite (render_keeps_list updates _ R).
    exact P.
Qed.

Lemma handleEvents_sync (events : list Event) : forall w : World,
  (forall m k v, accepts (storage w) m k v = true) ->
  persistedTones w = Some (customTones (component w)) ->
  (forall m k v,
      accepts (storage (handleEvents toLowerCase events w)) m k v = true)
  /\ persistedTones (handleEvents toLowerCase events w)
     = Some (customTones (component (handleEvents toLowerCase events w))).
Proof.
  induction events as [|e events IH]; intros w A P; [split; assumption|].
  cbn [handleEvents fold_left]. apply IH; unfold handleEvent;
    destruct (offered (component w) e); try assumption.
  - intros m k v.
    rewrite (proj1 (commit_sync _ w A P)). apply A.
  - apply (commit_sync _ w A P).
Qed.

(** Starting over a store that holds the text of a list, with a willing
    browser: the list is loaded, everything else is initial, and the store
    holds the list again. *)
Lemma mount_loads (ls : LocalStorage) (text : jsstring) (l : list jsstring) :
  (forall m k v, accepts ls m k v = true) ->
  getItem CUSTOM_TONES_STORAGE_KEY ls = Some text ->
  JSON.parse text = Some l ->
  mount ls
  = Some {| component := render [SetCustomTones (fun _ => l)] initialState;
            storage :=
              {| entries :=
                   <[CUSTOM_TONES_STORAGE_KEY := JSON.stringify l]>
                     (<[CUSTOM_TONES_STORAGE_KEY := JSON.stringify []]>
                        (entries ls));
                 accepts := accepts ls |} |}.
Proof.
  intros A G P. unfold mount, loadCustomTones. rewrite G.
  assert (T : truthy text = true).
  { destruct text; [discriminate P | reflexivity]. }
  rewrite T, P. unfold saveCustomTones, setItem. rewrite A.
  cbn [existsb replacesCustomTones orb entries accepts]. rewrite A.
  reflexivity.
Qed.

End StoreFacts.

Section StoreProperties.

(** X15.  The component writes one key only: whatever the events and
    whatever the browser does with the writes, every other entry of the
    store reads as before. *)
Theorem X15_other_keys_are_never_touched
    (toLowerCase : jsstring -> jsstring) (events : list Event) (w : World)
    (key : jsstring) :
  key <> CUSTOM_TONES_STORAGE_KEY ->
  getItem key (storage (handleEvents toLowerCase events w))
  = getItem key (storage w).
Proof.
  intros K. revert w. induction events as [|e events IH]; intros w;
    [reflexivity|].
  cbn [handleEvents fold_left]. unfold handleEvents in IH. rewrite IH.
  destruct (handleEvent_storage toLowerCase w e) as [-> | (l & ->)];
    [reflexivity|].
  unfold getItem. cbn [entries]. apply lookup_insert_ne. congruence.
Qed.

Lemma X15_other_keys_witness :
  getItem (lit "theme")
    (storage
       (handleEvents asciiToLowerCase
          [TypeTone (lit "Formal"); PressAdd]
          {| component := initialState;
             storage :=
               {| entries := {[ lit "theme" := lit "dark" ]};
                  accepts := fun _ _ _ => true |} |}))
  = getItem (lit "theme")
      (storage
         {| component := initialState;
            storage :=
              {| entries := {[ lit "theme" := lit "dark" ]};
                 accepts := fun _ _ _ => true |} |}).
Proof.
  refine (X15_other_keys_are_never_touched asciiToLowerCase
            [TypeTone (lit "Formal"); PressAdd]
            {| component := initialState;
               storage :=
                 {| entries := {[ lit "theme" := lit "dark" ]};
                    accepts := fun _ _ _ => true |} |}
            (lit "theme") _).
  discriminate.
Defined.

(** X16.  The stored text stays readable: when it reads back as a list of
    strings, it still does after any sequence of events, whether the
    browser takes the writes or refuses some of them. *)
Theorem X16_store_stays_readable
    (toLowerCase : jsstring -> jsstring) (events : list Event) (w : World) :
  is_Some (persistedTones w) ->
  is_Some (persistedTones (handleEvents toLowerCase events w)).
Proof.
  revert w. induction events as [|e events IH]; intros w H; [exact H|].
  cbn [handleEvents fold_left]. apply IH.
  unfold persistedTones in *.
  destruct (handleEvent_storage toLowerCase w e) as [-> | (l & ->)];
    [exact H|].
  unfold getItem. cbn [entries]. rewrite lookup_insert_eq, parse_stringify.
  eexists. reflexivity.
Qed.

Lemma X16_store_stays_readable_witness :
  is_Some
    (persistedTones
       (handleEvents asciiToLowerCase
          [TypeTone (lit "Formal"); PressAdd; PressRemove (lit "Formal")]
          (mountedWorld false))).
Proof.
  refine (X16_store_stays_readable asciiToLowerCase
            [TypeTone (lit "Formal"); PressAdd; PressRemove (lit "Formal")]
            (mountedWorld false) _).
  vm_compute. eexists. reflexivity.
Defined.

(** X17.  The tones survive a restart and nothing else does: with a
    willing browser and a store in step with the list, after any sequence
    of events a fresh start over the same store loads exactly the custom
    tones held at the end, with every other cell at its initial value, and
    leaves the store in step. *)
Theorem X17_tones_survive_a_restart
    (toLowerCase : jsstring -> jsstring) (events : list Event) (w : World) :
  (forall m k v, accepts (storage w) m k v = true) ->
  persistedTones w = Some (customTones (component w)) ->
  exists restarted,
    mount (storage (handleEvents toLowerCase events w)) = Some restarted
    /\ component restarted
       = render [SetCustomTones
                   (fun _ =>
                      customTones
                        (component (handleEvents toLowerCase events w)))]
                initialState
    /\ persistedTones restarted = Some (customTones (component restarted)).
Proof.
  intros A P.
  destruct (handleEvents_sync toLowerCase events w A P) as [A' P'].
  unfold persistedTones in P'.
  destruct (getItem CUSTOM_TONES_STORAGE_KEY
              (storage (handleEvents toLowerCase events w)))
    as [text|] eqn:G; [|discriminate].
  eexists. split; [exact (mount_loads _ text _ A' G P')|].
  split; [reflexivity|]. apply persisted_after_write.
Qed.

Lemma X17_tones_survive_witness :
  exists restarted,
    mount (storage
             (handleEvents asciiToLowerCase
                [TypeTone (lit " Formal "); PressAdd; ChooseTone (lit "Formal")]
                (mountedWorld true)))
    = Some restarted
    /\ component restarted
       = render [SetCustomTones
                   (fun _ =>
                      customTones
                        (component
                           (handleEvents asciiToLowerCase
                              [TypeTone (lit " Formal "); PressAdd;
                               ChooseTone (lit "Formal")]
                              (mountedWorld true))))]
                initialState
    /\ persistedTones restarted = Some (customTones (component restarted)).
Proof.
  refine (X17_tones_survive_a_restart asciiToLowerCase
            [TypeTone (lit " Formal "); PressAdd; ChooseTone (lit "Formal")]
            (mountedWorld true) (fun _ _ _ => eq_refl) _).
  vm_compute. reflexivity.
Defined.

(** X18.  The first start, over a store where the key is missing or holds
    the empty string: nothing is parsed, the component starts from its
    initial state, and the empty list is written; when the browser refuses
    that write, the store is left as it was and the failure is reported in
    the form-error cell. *)
Theorem X18_first_start (ls : LocalStorage) :
  getItem CUSTOM_TONES_STORAGE_KEY ls = None
  \/ getItem CUSTOM_TONES_STORAGE_KEY ls = Some [] ->
  (accepts ls (entries ls) CUSTOM_TONES_STORAGE_KEY (JSON.stringify []) = true ->
   mount ls
   = Some {| component := initialState;
             storage :=
               {| entries :=
                    <[CUSTOM_TONES_STORAGE_KEY := JSON.stringify []]>
                      (entries ls);
                  accepts := accepts ls |} |})
  /\ (accepts ls (entries ls) CUSTOM_TONES_STORAGE_KEY (JSON.stringify [])
      = false ->
      mount ls
      = Some {| component :=
                  render [SetFormError
                            (Some (lit "Could not save custom tones."))]
                         initialState;
                storage := ls |}).
Proof.
  intros G.
  assert (L : loadCustomTones ls = Some []).
  { unfold loadCustomTones. destruct G as [-> | ->]; reflexivity. }
  unfold mount, saveCustomTones, setItem. rewrite L.
  change (customTones initialState) with (@nil jsstring).
  split; intros A; rewrite A; reflexivity.
Qed.

Lemma X18_first_start_witness :
  mount {| entries := {[ lit "theme" := lit "dark" ]};
           accepts := fun _ _ _ => false |}
  = Some {| component :=
              render [SetFormError (Some (lit "Could not save custom tones."))]
                     initialState;
            storage :=
              {| entries := {[ lit "theme" := lit "dark" ]};
                 accepts := fun _ _ _ => false |} |}.
Proof.
  refine (proj2 (X18_first_start
                   {| entries := {[ lit "theme" := lit "dark" ]};
                      accepts := fun _ _ _ => false |} _) _).
  - left. vm_compute. reflexivity.
  - reflexivity.
Defined.

(** X19.  A start rewrites the store before it restores it: the save effect
    of the first render writes the empty list over the stored tones.  When
    the browser takes that write and refuses the one that should put the
    loaded list back, the component holds the tones, the store holds the
    empty list, and the failure is reported in the form-error cell. *)
Theorem X19_start_can_empty_the_store
    (ls : LocalStorage) (text : jsstring) (l : list jsstring) :
  getItem CUSTOM_TONES_STORAGE_KEY ls = Some text ->
  JSON.parse text = Some l ->
  accepts ls (entries ls) CUSTOM_TONES_STORAGE_KEY (JSON.stringify []) = true ->
  accepts ls
    (<[CUSTOM_TONES_STORAGE_KEY := JSON.stringify []]> (entries ls))
    CUSTOM_TONES_STORAGE_KEY (JSON.stringify l)
  = false ->
  exists started,
    mount ls = Some started
    /\ customTones (component started) = l
    /\ persistedTones started = Some []
    /\ formError (component started)
       = Some (lit "Could not save custom tones.").
Proof.
  intros G P A1 A2. unfold mount, loadCustomTones. rewrite G.
  assert (T : truthy text = true).
  { destruct text; [discriminate P | reflexivity]. }
  rewrite T, P. unfold saveCustomTones, setItem.
  change (customTones initialState) with (@nil jsstring). rewrite A1.
  cbn [existsb replacesCustomTones orb entries accepts app].
  change (customTones (render [SetCustomTones (fun _ => l)] initialState))
    with l.
  rewrite A2.
  eexists. split; [reflexivity|].
  split; [reflexivity|]. split; [|reflexivity].
  apply (persisted_after_write _ []).
Qed.

Lemma X19_start_can_empty_the_store_witness :
  exists started,
    mount (smallStore 2
             {[ CUSTOM_TONES_STORAGE_KEY := JSON.stringify [lit "Formal"] ]})
    = Some started
    /\ customTones (component started) = [lit "Formal"]
    /\ persistedTones started = Some []
    /\ formError (component started)
       = Some (lit "Could not save custom tones.").
Proof.
  refine (X19_start_can_empty_the_store
            (smallStore 2
               {[ CUSTOM_TONES_STORAGE_KEY := JSON.stringify [lit "Formal"] ]})
            (JSON.stringify [lit "Formal"]) [lit "Formal"] _ _ _ _).
  - vm_compute. reflexivity.
  - vm_compute. reflexivity.
  - reflexivity.
  - reflexivity.
Defined.

End StoreProperties.

(** ** The copy button *)

Section CopyProperties.

(** X20.  The copy button hands the clipboard what the process action put
    in the output cell.  After a process that ended with an API error,
    whatever caused it (a rejected call, a response without text, an answer
    that begins with the marker), there is nothing to copy and no flag is
    set.  After a process whose answer, once trimmed, is a non-empty text
    without the marker, the clipboard receives that trimmed text and the
    copied flag is set until the timer clears it. *)
Theorem X20_copy_takes_the_processed_text
    (TaskValue : Task -> jsstring) (st : AppState) (remote : Remote) :
  truthy (trim (inputText st)) = true ->
  (forall message,
      apiError (render (fst (run (handleRefine TaskValue st) remote)) st)
      = Some message ->
      handleCopy (render (fst (run (handleRefine TaskValue st) remote)) st)
      = ([], None))
  /\ (forall response,
        (forall log req, answer remote log req = Response (Some response)) ->
        startsWith (lit "Error:") (trim response) = false ->
        trim response <> [] ->
        snd (handleCopy
               (render (fst (run (handleRefine TaskValue st) remote)) st))
        = Some (trim response)
        /\ isCopied
             (render
                (fst (handleCopy
                        (render (fst (run (handleRefine TaskValue st) remote))
                                st)))
                (render (fst (run (handleRefine TaskValue st) remote)) st))
           = true
        /\ isCopied
             (render copyTimeout
                (render
                   (fst (handleCopy
                           (render
                              (fst (run (handleRefine TaskValue st) remote))
                              st)))
                   (render (fst (run (handleRefine TaskValue st) remote)) st)))
           = false).
Proof.
  intros V.
  destruct (handleRefine_calls_service TaskValue st remote V)
    as (prompt & systemInstruction & -> & P).
  cbn [fst]. unfold showResult, handleCopy. split.
  - intros message.
    destruct (startsWith (lit "Error:") _); [reflexivity | discriminate].
  - intros response A M N.
    rewrite (callGemini_run _ _ remote P), A. cbn [fst]. rewrite M.
    destruct (trim response) as [|c r] eqn:T; [congruence|].
    repeat split.
Qed.

Lemma X20_copy_takes_the_processed_text_witness :
  handleCopy
    (render
       (fst (run (handleRefine sampleTaskValue
                    (render [SetInputText (lit "hello there")] initialState))
                 (answering (Rejects (ErrorObject (lit "quota exceeded"))))))
       (render [SetInputText (lit "hello there")] initialState))
  = ([], None)
  /\ snd (handleCopy
            (render
               (fst (run (handleRefine sampleTaskValue
                            (render [SetInputText (lit "hello there")]
                                    initialState))
                         (answering (Response (Some (lit " Hey! "))))))
               (render [SetInputText (lit "hello there")] initialState)))
     = Some (trim (lit " Hey! ")).
Proof.
  split.
  - refine (proj1 (X20_copy_takes_the_processed_text
                     sampleTaskValue
                     (render [SetInputText (lit "hello there")] initialState)
                     (answering (Rejects (ErrorObject (lit "quota exceeded"))))
                     _)
                  (lit "Error: Failed to process text. quota exceeded") _);
      reflexivity.
  - refine (proj1 (proj2 (X20_copy_takes_the_processed_text
                            sampleTaskValue
                            (render [SetInputText (lit "hello there")]
                                    initialState)
                            (answering (Response (Some (lit " Hey! "))))
                            _)
                         (lit " Hey! ") _ _ _)).
    + reflexivity.
    + intros log req. reflexivity.
    + reflexivity.
    + discriminate.
Defined.

End CopyProperties.
